(** * ULEZ_Checker: a shallow embedding of [ulez_checker.py]

    The script looks a vehicle registration mark (VRM) up at a fixed
    Transport for London endpoint and prints the answer.  Its four
    functions ([check_vrm], [to_bool], [pretty_print], [main]) are embedded
    below as Rocq functions over

    - Python strings as lists of Unicode code points,
    - the values [json.loads] can produce as an inductive type [pyval],
    - Python exceptions as an inductive type [exn], a call ending either in
      [Returned v] or in [Raised e],
    - the process state the script touches (requests put on the wire, text
      written to standard output) as a record [World] threaded through a
      small state-and-exception monad.

    What the script takes from the Python runtime and from the [requests]
    and [json] libraries is either written out (string methods, [json.dumps],
    [Response.raise_for_status]) or taken as a parameter (the Unicode
    character database, [json.loads], the remote server). *)

From Stdlib Require Import List String Ascii ZArith NArith Bool Lia.
From Stdlib Require Import DecimalString SpecFloat.
Import ListNotations.

Set Warnings "-register-all".
Open Scope string_scope.
Open Scope Z_scope.
Open Scope list_scope.

(* ------------------------------------------------------------------ *)
(** ** Python strings *)

(** A Python [str] is a sequence of Unicode code points. *)
Definition codepoint := N.
Definition pystr := list codepoint.

(** [py "abc"] is the Python literal ['abc'] (ASCII literals only). *)
Definition py (s : string) : pystr :=
  map N_of_ascii (list_ascii_of_string s).

Definition space : codepoint := 32%N.
Definition newline : codepoint := 10%N.
Definition dquote : codepoint := 34%N.
Definition backslash : codepoint := 92%N.

Definition codepoint_eqb : codepoint -> codepoint -> bool := N.eqb.

Fixpoint str_eqb (a b : pystr) : bool :=
  match a, b with
  | [], [] => true
  | x :: a', y :: b' => codepoint_eqb x y && str_eqb a' b'
  | _, _ => false
  end.

(** [s.replace(old, new)] for a one-character [old]. *)
Definition str_replace (old : codepoint) (new : pystr) (s : pystr) : pystr :=
  flat_map (fun c => if codepoint_eqb c old then new else [c]) s.

(** [str(n)] for a Python [int]. *)
Definition str_of_int (n : Z) : pystr :=
  py (NilZero.string_of_int (Z.to_int n)).

Fixpoint str_startswith (p s : pystr) : bool :=
  match p, s with
  | [], _ => true
  | x :: p', y :: s' => codepoint_eqb x y && str_startswith p' s'
  | _ :: _, [] => false
  end.

(** [sub in s] *)
Fixpoint str_contains (sub s : pystr) : bool :=
  str_startswith sub s ||
  match s with
  | [] => false
  | _ :: s' => str_contains sub s'
  end.

(** [s.split('\n')] *)
Fixpoint str_lines_aux (cur : pystr) (s : pystr) : list pystr :=
  match s with
  | [] => [rev cur]
  | c :: s' =>
      if codepoint_eqb c newline then rev cur :: str_lines_aux [] s'
      else str_lines_aux (c :: cur) s'
  end.

Definition str_lines (s : pystr) : list pystr := str_lines_aux [] s.

(* ------------------------------------------------------------------ *)
(** ** Python values, exceptions and results *)

(** The values [json.loads] builds, which are also the values the script
    itself builds.  A [dict] keeps its items in insertion order. *)
Inductive pyval : Type :=
| PyNone
| PyBool (b : bool)
| PyInt (n : Z)
| PyFloat (f : spec_float)
| PyStr (s : pystr)
| PyList (l : list pyval)
| PyDict (items : list (pystr * pyval)).

(** The answer of the server as [requests] hands it over. *)
Record http_response : Type := {
  status_code : Z;
  reason : pystr;
  url : pystr;
  text : pystr
}.

(** The exception classes that can arise while the script runs.
    [JSONDecodeError] is a subclass of [ValueError]; [RequestException]
    stands for the transport failures of [requests] ([ConnectionError],
    [Timeout], ...), which are not subclasses of [HTTPError]. *)
Inductive exn : Type :=
| ValueError (msg : pystr)
| JSONDecodeError (msg : pystr)
| HTTPError (msg : pystr) (response : http_response)
| RequestException (msg : pystr)
| KeyError (key : pystr)
| TypeError (msg : pystr)
| EOFError (msg : pystr).

Inductive exn_class : Type :=
| ValueError_class
| HTTPError_class.

(** [isinstance(e, cls)] *)
Definition isinstance (e : exn) (cls : exn_class) : bool :=
  match cls, e with
  | ValueError_class, (ValueError _ | JSONDecodeError _) => true
  | HTTPError_class, HTTPError _ _ => true
  | _, _ => false
  end.

Inductive result (A : Type) : Type :=
| Returned (a : A)
| Raised (e : exn).
Arguments Returned {A} a.
Arguments Raised {A} e.

(** [type(v).__name__] *)
Definition type_name (v : pyval) : pystr :=
  match v with
  | PyNone => py "NoneType"
  | PyBool _ => py "bool"
  | PyInt _ => py "int"
  | PyFloat _ => py "float"
  | PyStr _ => py "str"
  | PyList _ => py "list"
  | PyDict _ => py "dict"
  end.

(** Item lookup and item assignment of a [dict]. *)
Fixpoint dict_get (k : pystr) (items : list (pystr * pyval)) : option pyval :=
  match items with
  | [] => None
  | (k', v) :: rest => if str_eqb k' k then Some v else dict_get k rest
  end.

Fixpoint dict_set (k : pystr) (v : pyval) (items : list (pystr * pyval))
  : list (pystr * pyval) :=
  match items with
  | [] => [(k, v)]
  | (k', v') :: rest =>
      if str_eqb k' k then (k', v) :: rest else (k', v') :: dict_set k v rest
  end.

(** The [TypeError] texts of CPython 3.11 for a string subscript. *)
Definition not_subscriptable (v : pyval) : pystr :=
  match v with
  | PyList _ => py "list indices must be integers or slices, not str"
  | PyStr _ => py "string indices must be integers, not 'str'"
  | _ => py "'" ++ type_name v ++ py "' object is not subscriptable"
  end.

Definition not_assignable (v : pyval) : pystr :=
  match v with
  | PyList _ => py "list indices must be integers or slices, not str"
  | _ => py "'" ++ type_name v ++ py "' object does not support item assignment"
  end.

(** [v[k]] for a string key [k]: only a [dict] can answer. *)
Definition getitem (v : pyval) (k : pystr) : result pyval :=
  match v with
  | PyDict items =>
      match dict_get k items with
      | Some x => Returned x
      | None => Raised (KeyError k)
      end
  | _ => Raised (TypeError (not_subscriptable v))
  end.

(** [v[k] = x] for a string key [k], giving the container after the store. *)
Definition setitem (v : pyval) (k : pystr) (x : pyval) : result pyval :=
  match v with
  | PyDict items => Returned (PyDict (dict_set k x items))
  | _ => Raised (TypeError (not_assignable v))
  end.

(** The value of a binary float: [Some (m, e)] stands for [m * 2^e]. *)
Definition float_value (f : spec_float) : option (Z * Z) :=
  match f with
  | S754_zero _ => Some (0, 0)
  | S754_finite s m e => Some (if s then Z.neg m else Z.pos m, e)
  | S754_infinity _ | S754_nan => None
  end.

(** [v == n] for an [int] literal [n]: [bool] is a subclass of [int], and a
    [float] is compared by its exact value. *)
Definition eq_int (v : pyval) (n : Z) : bool :=
  match v with
  | PyInt z => z =? n
  | PyBool b => (if b then 1 else 0) =? n
  | PyFloat f =>
      match float_value f with
      | Some (m, e) =>
          if 0 <=? e then m * 2 ^ e =? n else m =? n * 2 ^ (- e)
      | None => false
      end
  | _ => false
  end.

(** [v == s] for a [str] literal [s]. *)
Definition eq_str (v : pyval) (s : pystr) : bool :=
  match v with
  | PyStr t => str_eqb t s
  | _ => false
  end.

(* ------------------------------------------------------------------ *)
(** ** What the script takes from its environment *)

(** The parts of the Python runtime that are tables or parsers rather than
    code of the script:
    - [unicode_upper c] is the full upper-case mapping of the code point [c]
      ([str.upper] maps every character on its own, and one character may
      become several);
    - [unicode_isalnum c] says whether [c] is alphabetic, decimal, digit or
      numeric in the Unicode character database;
    - [py_repr v] is [repr(v)];
    - [json_loads s] is [json.loads(s)]. *)
Record Runtime : Type := {
  unicode_upper : codepoint -> pystr;
  unicode_isalnum : codepoint -> bool;
  py_repr : pyval -> pystr;
  json_loads : pystr -> result pyval
}.

(** A request as [requests.post(url, data, headers=...)] sends it. *)
Record http_request : Type := {
  req_method : pystr;
  req_url : pystr;
  req_data : pystr;
  req_headers : list (pystr * pystr)
}.

(** The remote side: what the [n]-th request of the process is answered
    with, either a response or a transport failure with its message. *)
Definition Upstream : Type := nat -> http_request -> http_response + pystr.

(** The state of the process the script can change: the requests it has put
    on the wire and the text it has written to standard output. *)
Record World : Type := {
  sent : list http_request;
  stdout : pystr
}.

(** Computations that may change the world and may raise. *)
Definition M (A : Type) : Type := World -> result A * World.

Definition ret {A : Type} (a : A) : M A := fun w => (Returned a, w).

Definition raise {A : Type} (e : exn) : M A := fun w => (Raised e, w).

Definition bind {A B : Type} (c : M A) (k : A -> M B) : M B :=
  fun w =>
    match c w with
    | (Returned a, w') => k a w'
    | (Raised e, w') => (Raised e, w')
    end.

Definition lift {A : Type} (r : result A) : M A := fun w => (r, w).

Declare Scope py_scope.
Delimit Scope py_scope with py.
Notation "x <- c ;; k" := (bind c (fun x => k))
  (at level 61, c at next level, right associativity) : py_scope.
Notation "c ;;; k" := (bind c (fun _ => k))
  (at level 61, right associativity) : py_scope.
Open Scope py_scope.

(** [try: body except classes as err: handler err] *)
Definition try_except {A : Type} (body : M A) (classes : list exn_class)
  (handler : exn -> M A) : M A :=
  fun w =>
    match body w with
    | (Returned a, w') => (Returned a, w')
    | (Raised e, w') =>
        if existsb (isinstance e) classes then handler e w'
        else (Raised e, w')
    end.

(** [sep.join(parts)] *)
Fixpoint str_join (sep : pystr) (parts : list pystr) : pystr :=
  match parts with
  | [] => []
  | [p] => p
  | p :: rest => p ++ sep ++ str_join sep rest
  end.

(** The two ways the script changes the world. *)
Definition write (t : pystr) (w : World) : World :=
  {| sent := sent w; stdout := stdout w ++ t |}.

Definition put_on_wire (req : http_request) (w : World) : World :=
  {| sent := sent w ++ [req]; stdout := stdout w |}.

(** [print(a1, ..., an, end=end_)] *)
Definition print (args : list pystr) (end_ : pystr) : M unit :=
  fun w => (Returned tt, write (str_join [space] args ++ end_) w).

(** [Response.raise_for_status()] of [requests]: only the 4xx and 5xx
    status codes raise. *)
Definition raise_for_status (r : http_response) : M unit :=
  let http_error_msg :=
    if (400 <=? status_code r) && (status_code r <? 500) then
      str_of_int (status_code r) ++ py " Client Error: " ++ reason r
        ++ py " for url: " ++ url r
    else if (500 <=? status_code r) && (status_code r <? 600) then
      str_of_int (status_code r) ++ py " Server Error: " ++ reason r
        ++ py " for url: " ++ url r
    else []
  in
  match http_error_msg with
  | [] => ret tt
  | _ :: _ => raise (HTTPError http_error_msg r)
  end.

(** The escapes of [json.dumps] with its default [ensure_ascii=True]. *)
Definition hex_digit (d : N) : codepoint :=
  (if d <? 10 then 48 + d else 87 + d)%N.

Definition hex4 (n : N) : pystr :=
  [hex_digit (n / 4096 mod 16); hex_digit (n / 256 mod 16);
   hex_digit (n / 16 mod 16); hex_digit (n mod 16)]%N.

Definition json_escape (c : codepoint) : pystr :=
  if (c =? 92)%N then py "\\"
  else if (c =? 34)%N then [backslash; dquote]
  else if (32 <=? c)%N && (c <=? 126)%N then [c]
  else if (c =? 8)%N then py "\b"
  else if (c =? 12)%N then py "\f"
  else if (c =? 10)%N then py "\n"
  else if (c =? 13)%N then py "\r"
  else if (c =? 9)%N then py "\t"
  else if (c <? 65536)%N then py "\u" ++ hex4 c
  else
    let n := (c - 65536)%N in
    py "\u" ++ hex4 (N.lor 55296 (N.land (N.shiftr n 10) 1023))
      ++ py "\u" ++ hex4 (N.lor 56320 (N.land n 1023)).

Definition json_string (s : pystr) : pystr :=
  [dquote] ++ flat_map json_escape s ++ [dquote].

Section Script.

Variable rt : Runtime.
Variable server : Upstream.

(** [s.upper()] *)
Definition str_upper (s : pystr) : pystr := flat_map (unicode_upper rt) s.

(** [s.isalnum()]: every character is alphanumeric and there is at least
    one character. *)
Definition str_isalnum (s : pystr) : bool :=
  match s with
  | [] => false
  | _ :: _ => forallb (unicode_isalnum rt) s
  end.

(** [format(v, '')], which is what a replacement field [{v}] of an f-string
    renders. *)
Definition py_format (v : pyval) : pystr :=
  match v with
  | PyStr s => s
  | PyNone => py "None"
  | PyBool true => py "True"
  | PyBool false => py "False"
  | PyInt n => str_of_int n
  | PyFloat _ | PyList _ | PyDict _ => py_repr rt v
  end.

(** [str(e)] *)
Definition str_of_exn (e : exn) : pystr :=
  match e with
  | KeyError k => py_repr rt (PyStr k)
  | ValueError m | JSONDecodeError m | HTTPError m _
  | RequestException m | TypeError m | EOFError m => m
  end.

(** [json.dumps(v)] with the default separators. *)
Fixpoint json_dumps (v : pyval) : pystr :=
  match v with
  | PyNone => py "null"
  | PyBool true => py "true"
  | PyBool false => py "false"
  | PyInt n => str_of_int n
  | PyFloat S754_nan => py "NaN"
  | PyFloat (S754_infinity false) => py "Infinity"
  | PyFloat (S754_infinity true) => py "-Infinity"
  | PyFloat _ => py_repr rt v
  | PyStr s => json_string s
  | PyList l => py "[" ++ str_join (py ", ") (map json_dumps l) ++ py "]"
  | PyDict items =>
      py "{"
      ++ str_join (py ", ")
           (map (fun kv => json_string (fst kv) ++ py ": " ++ json_dumps (snd kv))
              items)
      ++ py "}"
  end.

(** [requests.post(url, data, headers=headers)]: the request goes on the
    wire and the remote side answers it or the transport fails. *)
Definition requests_post (u data : pystr) (headers : list (pystr * pystr))
  : M http_response :=
  fun w =>
    let req := {| req_method := py "POST"; req_url := u;
                  req_data := data; req_headers := headers |} in
    match server (List.length (sent w)) req with
    | inl r => (Returned r, put_on_wire req w)
    | inr msg => (Raised (RequestException msg), put_on_wire req w)
    end.

(** [v[k1][k2]...[kn]], evaluated from the left. *)
Fixpoint subscript (v : pyval) (keys : list pystr) : result pyval :=
  match keys with
  | [] => Returned v
  | k :: keys' =>
      match getitem v k with
      | Returned x => subscript x keys'
      | Raised e => Raised e
      end
  end.

(* ------------------------------------------------------------------ *)
(** ** The script *)

Definition endpoint : pystr :=
  py "https://mobileapim.tfl.gov.uk/Prod/unirucCapitaFacade/VRMLookup".

Definition request_content (vrm : pystr) : pyval :=
  PyDict
    [(py "vrmLookupRequest",
      PyDict [(py "vRM", PyStr vrm);
              (py "country", PyStr (py "UK"));
              (py "date", PyDict [])])].

Definition request_headers : list (pystr * pystr) :=
  [(py "accept", py "application/json");
   (py "content-type", py "application/json")].

(** [check_vrm(vrm)].  The item assignment of the source changes the
    innermost [dict] in place; [json.loads] builds a tree that shares
    nothing, so the change is seen through [vrm_response] exactly as the
    three stores below rebuild it.  A call that reaches the end of the
    function body returns [None]. *)
Definition check_vrm (vrm : pystr) : M pyval :=
  let vrm := str_upper (str_replace space [] vrm) in
  if str_isalnum vrm then
    let content := request_content vrm in
    r <- requests_post endpoint (json_dumps content) request_headers ;;
    if status_code r =? 200 then
      vrm_response <- lift (json_loads rt (text r)) ;;
      make <- lift (subscript vrm_response
                      [py "vrmLookupResponse"; py "vehicleDetails"; py "make"]) ;;
      if eq_str make [] then
        raise (ValueError (py "VRM is invalid: " ++ vrm))
      else
        lr <- lift (getitem vrm_response (py "vrmLookupResponse")) ;;
        vd <- lift (getitem lr (py "vehicleDetails")) ;;
        vd' <- lift (setitem vd (py "vrm") (PyStr vrm)) ;;
        lr' <- lift (setitem lr (py "vehicleDetails") vd') ;;
        vrm_response' <- lift (setitem vrm_response (py "vrmLookupResponse") lr') ;;
        ret vrm_response'
    else
      raise_for_status r ;;;
      ret PyNone
  else
    raise (ValueError (py "VRM is invalid: " ++ vrm)).

(** [to_bool(number)] *)
Definition to_bool (number : pyval) : pyval :=
  if eq_int number 1 then PyBool true else PyBool false.

Definition rule : pystr := py "-----------------------------------------".

(** [pretty_print(vrm_response)]: the replacement fields of the f-string
    are evaluated from the left, then the text is printed. *)
Definition pretty_print (vrm_response : pyval) : M unit :=
  lr <- lift (getitem vrm_response (py "vrmLookupResponse")) ;;
  let details (k : string) := lift (subscript lr [py "vehicleDetails"; py k]) in
  let charge (k : string) :=
    lift (subscript lr [py "vehicleDetails"; py "chargeability"; py k]) in
  vrm <- details "vrm" ;;
  make <- details "make" ;;
  model <- details "model" ;;
  colour <- details "colour" ;;
  taxCode <- details "taxCode" ;;
  isCcChargeable <- charge "isCcChargeable" ;;
  isLezChargeable <- charge "isLezChargeable" ;;
  isUlezChargeable <- charge "isUlezChargeable" ;;
  isEsChargeable <- charge "isEsChargeable" ;;
  inAutoPay <- details "inAutoPay" ;;
  inAutoPayExceptions <- details "inAutoPayExceptions" ;;
  isCc100PcDiscounted <- details "isCc100PcDiscounted" ;;
  isUlez100PcDiscounted <- details "isUlez100PcDiscounted" ;;
  isULEZExempt <- details "isULEZExempt" ;;
  uLEZVehicleListType <- details "uLEZVehicleListType" ;;
  isULEZNonChargeable <- details "isULEZNonChargeable" ;;
  print
    [ [newline] ++ rule ++ [newline]
      ++ py "VRM: " ++ py_format vrm ++ [newline]
      ++ py "Make: " ++ py_format make ++ [newline]
      ++ py "Model: " ++ py_format model ++ [newline]
      ++ py "Colour: " ++ py_format colour ++ [newline]
      ++ py "Tax Code: " ++ py_format taxCode ++ [newline]
      ++ py "Chargeability:" ++ [newline]
      ++ py "    Congestion: " ++ py_format (to_bool isCcChargeable) ++ [newline]
      ++ py "    LEZ: " ++ py_format (to_bool isLezChargeable) ++ [newline]
      ++ py "    ULEZ: " ++ py_format (to_bool isUlezChargeable) ++ [newline]
      ++ py "    ES: " ++ py_format (to_bool isEsChargeable) ++ [newline]
      ++ py "Auto Pay: " ++ py_format inAutoPay ++ [newline]
      ++ py "Auto Pay Exceptions: " ++ py_format inAutoPayExceptions ++ [newline]
      ++ py "Congestion Charge 100% Discounted: "
      ++ py_format isCc100PcDiscounted ++ [newline]
      ++ py "ULEZ 100% Discounted: " ++ py_format isUlez100PcDiscounted
      ++ [newline]
      ++ py "ULEZ Exempt: " ++ py_format (to_bool isULEZExempt) ++ [newline]
      ++ py "ULEZ Vehicle Type List: " ++ py_format uLEZVehicleListType
      ++ [newline]
      ++ py "ULEZ Non-Chargeable: " ++ py_format (to_bool isULEZNonChargeable)
      ++ [newline]
      ++ rule ++ [newline] ]
    [newline].

Definition prompt : pystr := py "Enter a vehicle registration mark to check: ".

(** One pass through the body of the [while True:] loop of [main], for the
    line [input()] has read. *)
Definition main_body (vrm : pystr) : M unit :=
  try_except
    (vrm_response <- check_vrm vrm ;;
     pretty_print vrm_response)
    [ValueError_class; HTTPError_class]
    (fun err => print [py "An error occurred -"; str_of_exn err] [newline]).

(** [main()], run on the lines standard input still holds.  [input()]
    takes the next line, and raises [EOFError] when there is none.  The
    loop has no [break] and no [return]. *)
Fixpoint main (stdin : list pystr) : M unit :=
  print [prompt] [] ;;;
  match stdin with
  | [] => raise (EOFError (py "EOF when reading a line"))
  | vrm :: stdin' =>
      main_body vrm ;;;
      main stdin'
  end.

End Script.


(* ------------------------------------------------------------------ *)
(** ** A runtime to run the script on

    The theorems below hold for every [Runtime] and every [Upstream].  To
    run the script on concrete inputs this module gives one runtime, which
    agrees with CPython 3.11 on a fragment: text of the Basic Latin block
    (code points below 128), and JSON documents whose numbers are integers
    or one of the constants [NaN], [Infinity] and [-Infinity], which
    [json.loads] takes for floats, and whose strings hold neither control
    characters nor escapes other than the eight one-letter ones.  Every run
    below stays inside the fragment. *)
Module BasicLatin.

Definition in_range (lo hi c : N) : bool := ((lo <=? c) && (c <=? hi))%N.

Definition upper (c : codepoint) : pystr :=
  if in_range 97 122 c then [(c - 32)%N] else [c].

Definition isalnum (c : codepoint) : bool :=
  in_range 48 57 c || in_range 65 90 c || in_range 97 122 c.

(** [repr] of a [str]: single quotes unless the text holds a single quote
    and no double quote. *)
Definition repr_char (quote : codepoint) (c : codepoint) : pystr :=
  if codepoint_eqb c backslash then py "\\"
  else if codepoint_eqb c quote then [backslash; quote]
  else if codepoint_eqb c 10%N then py "\n"
  else if codepoint_eqb c 13%N then py "\r"
  else if codepoint_eqb c 9%N then py "\t"
  else if (c <? 32)%N || codepoint_eqb c 127%N then
    py "\x" ++ [hex_digit (c / 16); hex_digit (c mod 16)]%N
  else [c].

Definition repr_str (s : pystr) : pystr :=
  let quote :=
    if existsb (codepoint_eqb 39%N) s && negb (existsb (codepoint_eqb dquote) s)
    then dquote else 39%N in
  [quote] ++ flat_map (repr_char quote) s ++ [quote].

(** [repr] of a value; a float other than [nan] and the two infinities is
    outside the fragment. *)
Fixpoint repr (v : pyval) : pystr :=
  match v with
  | PyNone => py "None"
  | PyBool true => py "True"
  | PyBool false => py "False"
  | PyInt n => str_of_int n
  | PyFloat S754_nan => py "nan"
  | PyFloat (S754_infinity false) => py "inf"
  | PyFloat (S754_infinity true) => py "-inf"
  | PyFloat _ => py "<float>"
  | PyStr s => repr_str s
  | PyList l => py "[" ++ str_join (py ", ") (map repr l) ++ py "]"
  | PyDict items =>
      py "{"
      ++ str_join (py ", ")
           (map (fun kv => repr_str (fst kv) ++ py ": " ++ repr (snd kv)) items)
      ++ py "}"
  end.

(** The scanner of [json.loads].  [Failed msg k] is a [JSONDecodeError]
    with [k] characters of the document left at the place of the error;
    [Unsupported] marks a document outside the fragment. *)
Inductive parse (A : Type) : Type :=
| Parsed (a : A) (rest : pystr)
| Failed (msg : pystr) (left : nat)
| Unsupported.
Arguments Parsed {A} a rest.
Arguments Failed {A} msg left.
Arguments Unsupported {A}.

Definition is_ws (c : codepoint) : bool :=
  codepoint_eqb c 32%N || codepoint_eqb c 9%N || codepoint_eqb c 10%N
  || codepoint_eqb c 13%N.

Fixpoint skip_ws (s : pystr) : pystr :=
  match s with
  | c :: s' => if is_ws c then skip_ws s' else s
  | [] => []
  end.

Definition simple_escape (c : codepoint) : option codepoint :=
  if codepoint_eqb c dquote then Some dquote
  else if codepoint_eqb c backslash then Some backslash
  else if codepoint_eqb c 47%N then Some 47%N
  else if codepoint_eqb c 98%N then Some 8%N
  else if codepoint_eqb c 102%N then Some 12%N
  else if codepoint_eqb c 110%N then Some 10%N
  else if codepoint_eqb c 114%N then Some 13%N
  else if codepoint_eqb c 116%N then Some 9%N
  else None.

(** The text of a string, from the character after its opening quote;
    [start] is what was left of the document at that quote. *)
Fixpoint scan_string (start : nat) (acc : pystr) (s : pystr) : parse pystr :=
  match s with
  | [] => Failed (py "Unterminated string starting at") start
  | c :: s' =>
      if codepoint_eqb c dquote then Parsed (rev acc) s'
      else if codepoint_eqb c backslash then
        match s' with
        | [] => Failed (py "Unterminated string starting at") start
        | e :: s'' =>
            match simple_escape e with
            | Some x => scan_string start (x :: acc) s''
            | None => Unsupported
            end
        end
      else if (c <? 32)%N then Unsupported
      else scan_string start (c :: acc) s'
  end.

Definition is_digit (c : codepoint) : bool := in_range 48 57 c.

Fixpoint scan_digits (acc : Z) (s : pystr) : Z * pystr :=
  match s with
  | c :: s' =>
      if is_digit c then scan_digits (10 * acc + Z.of_N (c - 48)) s'
      else (acc, s)
  | [] => (acc, [])
  end.

(** Is the integer just read the start of a float literal? *)
Definition float_follows (s : pystr) : bool :=
  match s with
  | 46%N :: d :: _ => is_digit d
  | (69%N | 101%N) :: (43%N | 45%N) :: d :: _ => is_digit d
  | (69%N | 101%N) :: d :: _ => is_digit d
  | _ => false
  end.

(** One of the words [null], [true], [false], [NaN], [Infinity] and
    [-Infinity] at the head of [s]. *)
Definition literal (word : string) (v : pyval) (s : pystr) : parse pyval :=
  if str_startswith (py word) s
  then Parsed v (skipn (String.length word) s)
  else Failed (py "Expecting value") (List.length s).

(** An integer literal at the head of [s]: an optional minus sign, then
    either a single zero or a digit other than zero and further digits; a
    minus sign before [Infinity] makes the float constant. *)
Definition scan_int (s : pystr) : parse pyval :=
  let '(neg, body) :=
    match s with
    | 45%N :: s' => (true, s')
    | _ => (false, s)
    end in
  match body with
  | c :: body' =>
      if codepoint_eqb c 48%N then
        if float_follows body' then Unsupported
        else Parsed (PyInt 0) body'
      else if is_digit c then
        let '(n, rest) := scan_digits 0 body in
        if float_follows rest then Unsupported
        else Parsed (PyInt (if neg then - n else n)) rest
      else if neg && codepoint_eqb c 73%N then
        literal "-Infinity" (PyFloat (S754_infinity true)) s
      else Failed (py "Expecting value") (List.length s)
  | [] => Failed (py "Expecting value") (List.length s)
  end.

Fixpoint scan_once (fuel : nat) (s : pystr) {struct fuel} : parse pyval :=
  match fuel with
  | O => Unsupported
  | S fuel' =>
      match s with
      | [] => Failed (py "Expecting value") 0
      | c :: s' =>
          if codepoint_eqb c dquote then
            match scan_string (List.length s) [] s' with
            | Parsed t rest => Parsed (PyStr t) rest
            | Failed m k => Failed m k
            | Unsupported => Unsupported
            end
          else if codepoint_eqb c 123%N then
            match skip_ws s' with
            | 125%N :: rest => Parsed (PyDict []) rest
            | s1 => scan_members fuel' [] s1
            end
          else if codepoint_eqb c 91%N then
            match skip_ws s' with
            | 93%N :: rest => Parsed (PyList []) rest
            | s1 => scan_elements fuel' [] s1
            end
          else if codepoint_eqb c 110%N then literal "null" PyNone s
          else if codepoint_eqb c 116%N then literal "true" (PyBool true) s
          else if codepoint_eqb c 102%N then literal "false" (PyBool false) s
          else if codepoint_eqb c 78%N then literal "NaN" (PyFloat S754_nan) s
          else if codepoint_eqb c 73%N then
            literal "Infinity" (PyFloat (S754_infinity false)) s
          else scan_int s
      end
  end

with scan_elements (fuel : nat) (acc : list pyval) (s : pystr) {struct fuel}
  : parse pyval :=
  match fuel with
  | O => Unsupported
  | S fuel' =>
      match scan_once fuel' s with
      | Parsed v rest =>
          match skip_ws rest with
          | 93%N :: rest' => Parsed (PyList (rev (v :: acc))) rest'
          | 44%N :: rest' => scan_elements fuel' (v :: acc) (skip_ws rest')
          | s2 => Failed (py "Expecting ',' delimiter") (List.length s2)
          end
      | Failed m k => Failed m k
      | Unsupported => Unsupported
      end
  end

with scan_members (fuel : nat) (acc : list (pystr * pyval)) (s : pystr)
  {struct fuel} : parse pyval :=
  match fuel with
  | O => Unsupported
  | S fuel' =>
      match s with
      | 34%N :: s' =>
          match scan_string (List.length s) [] s' with
          | Parsed key rest =>
              match skip_ws rest with
              | 58%N :: rest' =>
                  match scan_once fuel' (skip_ws rest') with
                  | Parsed v rest'' =>
                      let acc' := dict_set key v acc in
                      match skip_ws rest'' with
                      | 125%N :: rest3 => Parsed (PyDict acc') rest3
                      | 44%N :: rest3 => scan_members fuel' acc' (skip_ws rest3)
                      | s4 => Failed (py "Expecting ',' delimiter") (List.length s4)
                      end
                  | Failed m k => Failed m k
                  | Unsupported => Unsupported
                  end
              | s2 => Failed (py "Expecting ':' delimiter") (List.length s2)
              end
          | Failed m k => Failed m k
          | Unsupported => Unsupported
          end
      | _ =>
          Failed (py "Expecting property name enclosed in double quotes")
            (List.length s)
      end
  end.

(** The text of a [JSONDecodeError] raised at position [pos] of [doc]. *)
Definition count_newlines (s : pystr) : nat :=
  List.length (filter (codepoint_eqb newline) s).

Fixpoint column (col : nat) (s : pystr) : nat :=
  match s with
  | [] => col
  | c :: s' => if codepoint_eqb c newline then column 1 s' else column (S col) s'
  end.

Definition decode_error (msg : pystr) (doc : pystr) (pos : nat) : exn :=
  let before := firstn pos doc in
  JSONDecodeError
    (msg ++ py ": line " ++ str_of_int (Z.of_nat (S (count_newlines before)))
       ++ py " column " ++ str_of_int (Z.of_nat (column 1 before))
       ++ py " (char " ++ str_of_int (Z.of_nat pos) ++ py ")").

Definition loads_fragment (doc : pystr) : option (result pyval) :=
  match doc with
  | 65279%N :: _ => None
  | _ =>
      let n := List.length doc in
      match scan_once (2 * n + 3) (skip_ws doc) with
      | Parsed v rest =>
          match skip_ws rest with
          | [] => Some (Returned v)
          | s => Some (Raised (decode_error (py "Extra data") doc
                                 (n - List.length s)))
          end
      | Failed m k => Some (Raised (decode_error m doc (n - k)))
      | Unsupported => None
      end
  end.

Definition loads (doc : pystr) : result pyval :=
  match loads_fragment doc with
  | Some r => r
  | None => Raised (JSONDecodeError (py "document outside the fragment"))
  end.

Definition runtime : Runtime :=
  {| unicode_upper := upper;
     unicode_isalnum := isalnum;
     py_repr := repr;
     json_loads := loads |}.

End BasicLatin.

(* ------------------------------------------------------------------ *)
(** ** Vocabulary of the properties *)

(** The VRM as [check_vrm] uses it: spaces removed, then upper-cased. *)
Definition normalised (rt : Runtime) (vrm : pystr) : pystr :=
  str_upper rt (str_replace space [] vrm).

(** The one request a lookup of [vrm] puts on the wire. *)
Definition lookup_request (rt : Runtime) (vrm : pystr) : http_request :=
  {| req_method := py "POST";
     req_url := endpoint;
     req_data := json_dumps rt (request_content (normalised rt vrm));
     req_headers := request_headers |}.

Definition make_path : list pystr :=
  [py "vrmLookupResponse"; py "vehicleDetails"; py "make"].

Definition vrm_path : list pystr :=
  [py "vrmLookupResponse"; py "vehicleDetails"; py "vrm"].

(** Does the [except (ValueError, HTTPError)] clause of [main] take [e]? *)
Definition caught (e : exn) : bool :=
  existsb (isinstance e) [ValueError_class; HTTPError_class].

(** The line [main] prints for a caught exception with text [m]. *)
Definition error_line (m : pystr) : pystr :=
  py "An error occurred - " ++ m ++ [newline].

(** Does the path [p] leave the path [q] at some key? *)
Fixpoint branches_off (p q : list pystr) : bool :=
  match p, q with
  | a :: p', b :: q' => if str_eqb a b then branches_off p' q' else true
  | _, _ => false
  end.

(** A server that gives every request the same answer. *)
Definition always (r : http_response) : Upstream := fun _ _ => inl r.

(** A text written with an apostrophe wherever it holds a double quote. *)
Definition quoted (s : string) : pystr :=
  map (fun c => if codepoint_eqb c 39%N then dquote else c) (py s).

Definition answer (status : Z) (why : string) (body : pystr) : http_response :=
  {| status_code := status; reason := py why; url := endpoint; text := body |}.

Definition fresh : World := {| sent := []; stdout := [] |}.

(** The body of the request for the normalised VRM [n], as text. *)
Definition request_body (n : pystr) : pystr :=
  quoted "{'vrmLookupRequest': {'vRM': " ++ json_string n
    ++ quoted ", 'country': 'UK', 'date': {}}}".

(** A server whose first answer differs from its later ones. *)
Definition first_then (r0 r : http_response) : Upstream :=
  fun n _ => match n with O => inl r0 | S _ => inl r end.

(** The sixteen values [pretty_print] reads from a lookup response, in the
    order in which it reads them, and the text it makes of them. *)
Record report_fields : Type := {
  f_vrm : pyval;
  f_make : pyval;
  f_model : pyval;
  f_colour : pyval;
  f_taxCode : pyval;
  f_isCcChargeable : pyval;
  f_isLezChargeable : pyval;
  f_isUlezChargeable : pyval;
  f_isEsChargeable : pyval;
  f_inAutoPay : pyval;
  f_inAutoPayExceptions : pyval;
  f_isCc100PcDiscounted : pyval;
  f_isUlez100PcDiscounted : pyval;
  f_isULEZExempt : pyval;
  f_uLEZVehicleListType : pyval;
  f_isULEZNonChargeable : pyval
}.

Definition details_path (k : string) : list pystr :=
  [py "vrmLookupResponse"; py "vehicleDetails"; py k].

Definition charge_path (k : string) : list pystr :=
  [py "vrmLookupResponse"; py "vehicleDetails"; py "chargeability"; py k].

Definition and_then {A B : Type} (r : result A) (k : A -> result B)
  : result B :=
  match r with
  | Returned a => k a
  | Raised e => Raised e
  end.

Definition read_fields (doc : pyval) : result report_fields :=
  and_then (subscript doc (details_path "vrm")) (fun vrm =>
  and_then (subscript doc (details_path "make")) (fun make =>
  and_then (subscript doc (details_path "model")) (fun model =>
  and_then (subscript doc (details_path "colour")) (fun colour =>
  and_then (subscript doc (details_path "taxCode")) (fun taxCode =>
  and_then (subscript doc (charge_path "isCcChargeable")) (fun isCc =>
  and_then (subscript doc (charge_path "isLezChargeable")) (fun isLez =>
  and_then (subscript doc (charge_path "isUlezChargeable")) (fun isUlez =>
  and_then (subscript doc (charge_path "isEsChargeable")) (fun isEs =>
  and_then (subscript doc (details_path "inAutoPay")) (fun inAutoPay =>
  and_then (subscript doc (details_path "inAutoPayExceptions")) (fun inAPE =>
  and_then (subscript doc (details_path "isCc100PcDiscounted")) (fun isCc100 =>
  and_then (subscript doc (details_path "isUlez100PcDiscounted")) (fun isUlez100 =>
  and_then (subscript doc (details_path "isULEZExempt")) (fun isExempt =>
  and_then (subscript doc (details_path "uLEZVehicleListType")) (fun listType =>
  and_then (subscript doc (details_path "isULEZNonChargeable")) (fun isNonCh =>
  Returned
    {| f_vrm := vrm; f_make := make; f_model := model; f_colour := colour;
       f_taxCode := taxCode; f_isCcChargeable := isCc;
       f_isLezChargeable := isLez; f_isUlezChargeable := isUlez;
       f_isEsChargeable := isEs; f_inAutoPay := inAutoPay;
       f_inAutoPayExceptions := inAPE; f_isCc100PcDiscounted := isCc100;
       f_isUlez100PcDiscounted := isUlez100; f_isULEZExempt := isExempt;
       f_uLEZVehicleListType := listType;
       f_isULEZNonChargeable := isNonCh |})))))))))))))))).

(** How Python spells a [bool]. *)
Definition bool_text (b : bool) : pystr :=
  if b then py "True" else py "False".

Definition report_lines (rt : Runtime) (f : report_fields) : list pystr :=
  [ rule;
    py "VRM: " ++ py_format rt (f_vrm f);
    py "Make: " ++ py_format rt (f_make f);
    py "Model: " ++ py_format rt (f_model f);
    py "Colour: " ++ py_format rt (f_colour f);
    py "Tax Code: " ++ py_format rt (f_taxCode f);
    py "Chargeability:";
    py "    Congestion: " ++ bool_text (eq_int (f_isCcChargeable f) 1);
    py "    LEZ: " ++ bool_text (eq_int (f_isLezChargeable f) 1);
    py "    ULEZ: " ++ bool_text (eq_int (f_isUlezChargeable f) 1);
    py "    ES: " ++ bool_text (eq_int (f_isEsChargeable f) 1);
    py "Auto Pay: " ++ py_format rt (f_inAutoPay f);
    py "Auto Pay Exceptions: " ++ py_format rt (f_inAutoPayExceptions f);
    py "Congestion Charge 100% Discounted: "
      ++ py_format rt (f_isCc100PcDiscounted f);
    py "ULEZ 100% Discounted: " ++ py_format rt (f_isUlez100PcDiscounted f);
    py "ULEZ Exempt: " ++ bool_text (eq_int (f_isULEZExempt f) 1);
    py "ULEZ Vehicle Type List: " ++ py_format rt (f_uLEZVehicleListType f);
    py "ULEZ Non-Chargeable: " ++ bool_text (eq_int (f_isULEZNonChargeable f) 1);
    rule ].

(** The text of the report: a newline, then every line with its newline. *)
Definition report (rt : Runtime) (f : report_fields) : pystr :=
  [newline] ++ List.concat (map (fun l => l ++ [newline]) (report_lines rt f)).

(** The six flags [pretty_print] passes through [to_bool]: the label of
    the line and the path of the value. *)
Definition flag_lines : list (string * list pystr) :=
  [ ("    Congestion: ", charge_path "isCcChargeable");
    ("    LEZ: ", charge_path "isLezChargeable");
    ("    ULEZ: ", charge_path "isUlezChargeable");
    ("    ES: ", charge_path "isEsChargeable");
    ("ULEZ Exempt: ", details_path "isULEZExempt");
    ("ULEZ Non-Chargeable: ", details_path "isULEZNonChargeable") ].

(** The flag [fl] of the response [doc] is a line of [text], spelt as
    Python spells the truth of [value == 1]. *)
Definition flag_line_rendered (doc : pyval) (text : pystr)
  (fl : string * list pystr) : Prop :=
  exists v,
    subscript doc (snd fl) = Returned v
    /\ In (py (fst fl) ++ bool_text (eq_int v 1)) (str_lines text).

(** A lookup response as [check_vrm] returns it for the body [ford_body],
    with the ULEZ flag as given. *)
Definition ford_details (isUlezChargeable : pyval) : pyval :=
  PyDict
    [(py "vrmLookupResponse",
      PyDict
        [(py "vehicleDetails",
          PyDict
            [(py "make", PyStr (py "Ford"));
             (py "model", PyStr (py "Fiesta"));
             (py "colour", PyStr (py "Blue"));
             (py "taxCode", PyStr (py "PLG"));
             (py "chargeability",
              PyDict [(py "isCcChargeable", PyInt 1);
                      (py "isLezChargeable", PyInt 0);
                      (py "isUlezChargeable", isUlezChargeable);
                      (py "isEsChargeable", PyInt 0)]);
             (py "inAutoPay", PyBool false);
             (py "inAutoPayExceptions", PyBool false);
             (py "isCc100PcDiscounted", PyBool false);
             (py "isUlez100PcDiscounted", PyBool false);
             (py "isULEZExempt", PyInt 0);
             (py "uLEZVehicleListType", PyStr (py "None"));
             (py "isULEZNonChargeable", PyInt 0);
             (py "vrm", PyStr (py "AB12CDE"))])])].

(** The binary64 number 1.0. *)
Definition float_one : spec_float := S754_finite false 4503599627370496 (-52).

(** Bodies the server may answer with, written as the JSON text. *)
Definition ford_body : pystr :=
  quoted
    ("{'vrmLookupResponse': {'vehicleDetails': {'make': 'Ford', "
     ++ "'model': 'Fiesta', 'colour': 'Blue', 'taxCode': 'PLG', "
     ++ "'chargeability': {'isCcChargeable': 1, 'isLezChargeable': 0, "
     ++ "'isUlezChargeable': 1, 'isEsChargeable': 0}, "
     ++ "'inAutoPay': false, 'inAutoPayExceptions': false, "
     ++ "'isCc100PcDiscounted': false, 'isUlez100PcDiscounted': false, "
     ++ "'isULEZExempt': 0, 'uLEZVehicleListType': 'None', "
     ++ "'isULEZNonChargeable': 0}}}")%string.

Definition unknown_body : pystr :=
  quoted "{'vrmLookupResponse': {'vehicleDetails': {'make': ''}}}".

Definition make_only_body : pystr :=
  quoted "{'vrmLookupResponse': {'vehicleDetails': {'make': 'Ford'}}}".

Definition empty_object_body : pystr := py "{}".

Definition html_body : pystr := py "<html>Service unavailable</html>".

(** A body [json.loads] takes for the float [nan], though it is not JSON. *)
Definition nan_body : pystr := py "NaN".

(** The text [raise_for_status] gives an [HTTPError]: [kind] is
    [" Client Error: "] or [" Server Error: "]. *)
Definition http_error_text (kind : string) (r : http_response) : pystr :=
  str_of_int (status_code r) ++ py kind ++ reason r ++ py " for url: " ++ url r.

(** A request as the script makes them: a POST for the fixed endpoint with
    the two JSON headers. *)
Definition is_lookup_post (req : http_request) : Prop :=
  req_method req = py "POST" /\ req_url req = endpoint
  /\ req_headers req = request_headers.


(** The keys of a [dict], in its order; no keys for any other value. *)
Definition dict_keys (v : pyval) : list pystr :=
  match v with
  | PyDict items => map fst items
  | _ => []
  end.


(* ------------------------------------------------------------------ *)
(** ** Strings and dictionaries *)

Lemma str_eqb_eq (a b : pystr) : str_eqb a b = true <-> a = b.
Proof.
  revert b; induction a as [|x a IH]; intros [|y b]; simpl;
    try (split; [discriminate | discriminate]); try tauto.
  unfold codepoint_eqb.
  rewrite andb_true_iff, N.eqb_eq, IH.
  split; [intros [-> ->]; reflexivity | intros H; inversion H; auto].
Qed.

Lemma str_eqb_refl (a : pystr) : str_eqb a a = true.
Proof. apply str_eqb_eq; reflexivity. Qed.

Lemma str_eqb_neq (a b : pystr) : str_eqb a b = false <-> a <> b.
Proof.
  rewrite <- str_eqb_eq. destruct (str_eqb a b); split; congruence.
Qed.

Lemma dict_get_set_same (k : pystr) (v : pyval) (items : list (pystr * pyval)) :
  dict_get k (dict_set k v items) = Some v.
Proof.
  induction items as [|[k' v'] rest IH]; simpl.
  - now rewrite str_eqb_refl.
  - destruct (str_eqb k' k) eqn:E; simpl; rewrite E; auto.
Qed.

Lemma dict_get_set_other (k k0 : pystr) (v : pyval)
  (items : list (pystr * pyval)) :
  str_eqb k k0 = false ->
  dict_get k (dict_set k0 v items) = dict_get k items.
Proof.
  intros Hne. induction items as [|[k' v'] rest IH]; simpl.
  - destruct (str_eqb k0 k) eqn:E; [|reflexivity].
    apply str_eqb_eq in E; subst. now rewrite str_eqb_refl in Hne.
  - destruct (str_eqb k' k0) eqn:E; simpl.
    + apply str_eqb_eq in E; subst k'.
      destruct (str_eqb k0 k) eqn:E'; [|reflexivity].
      apply str_eqb_eq in E'; subst. now rewrite str_eqb_refl in Hne.
    + now rewrite IH.
Qed.

Lemma str_isalnum_false_iff (rt : Runtime) (s : pystr) :
  str_isalnum rt s = false <->
  s = [] \/ Exists (fun c => unicode_isalnum rt c = false) s.
Proof.
  destruct s as [|c s]; simpl.
  - split; auto.
  - change (unicode_isalnum rt c && forallb (unicode_isalnum rt) s)
      with (forallb (unicode_isalnum rt) (c :: s)).
    split.
    + intros H. right. apply Exists_exists.
      destruct (forallb (unicode_isalnum rt) (c :: s)) eqn:E; [discriminate|].
      clear H. induction (c :: s) as [|x l IH]; [discriminate|].
      simpl in E. apply andb_false_iff in E as [E|E].
      * exists x; split; [left; reflexivity | exact E].
      * destruct (IH E) as (y & Hy & Hf). exists y; split; [right|]; assumption.
    + intros [H|H]; [discriminate|].
      apply Exists_exists in H as (y & Hy & Hf).
      destruct (forallb (unicode_isalnum rt) (c :: s)) eqn:E; [|reflexivity].
      rewrite forallb_forall in E. rewrite (E y Hy) in Hf. discriminate.
Qed.

(* ------------------------------------------------------------------ *)
(** ** The lookup *)

Section Lookup.

Variable rt : Runtime.
Variable server : Upstream.

(** A VRM that fails the check raises before anything else happens. *)
Lemma check_vrm_invalid (vrm : pystr) (w : World) :
  str_isalnum rt (normalised rt vrm) = false ->
  check_vrm rt server vrm w
  = (Raised (ValueError (py "VRM is invalid: " ++ normalised rt vrm)), w).
Proof.
  intros H. unfold check_vrm. fold (normalised rt vrm). rewrite H. reflexivity.
Qed.

(** A VRM that passes the check puts its request on the wire; when the
    transport fails the failure is what the call raises. *)
Lemma check_vrm_transport_failure (vrm msg : pystr) (w : World) :
  str_isalnum rt (normalised rt vrm) = true ->
  server (List.length (sent w)) (lookup_request rt vrm) = inr msg ->
  check_vrm rt server vrm w
  = (Raised (RequestException msg), put_on_wire (lookup_request rt vrm) w).
Proof.
  intros Hv Hs. unfold check_vrm. fold (normalised rt vrm). rewrite Hv.
  unfold bind, requests_post. fold (lookup_request rt vrm). rewrite Hs.
  reflexivity.
Qed.

(** What [check_vrm] does with the answer to a valid VRM, status by status. *)
Lemma check_vrm_not_200 (vrm : pystr) (w : World) (r : http_response) :
  str_isalnum rt (normalised rt vrm) = true ->
  server (List.length (sent w)) (lookup_request rt vrm) = inl r ->
  status_code r <> 200 ->
  check_vrm rt server vrm w
  = match raise_for_status r (put_on_wire (lookup_request rt vrm) w) with
    | (Returned _, w') => (Returned PyNone, w')
    | (Raised e, w') => (Raised e, w')
    end.
Proof.
  intros Hv Hs Hne. unfold check_vrm. fold (normalised rt vrm). rewrite Hv.
  unfold bind, requests_post. fold (lookup_request rt vrm). rewrite Hs.
  apply Z.eqb_neq in Hne. rewrite Hne.
  destruct (raise_for_status r _) as [[[]|e] w']; reflexivity.
Qed.

Lemma check_vrm_200 (vrm : pystr) (w : World) (r : http_response) :
  str_isalnum rt (normalised rt vrm) = true ->
  server (List.length (sent w)) (lookup_request rt vrm) = inl r ->
  status_code r = 200 ->
  check_vrm rt server vrm w
  = let n := normalised rt vrm in
    let w' := put_on_wire (lookup_request rt vrm) w in
    match json_loads rt (text r) with
    | Raised e => (Raised e, w')
    | Returned doc =>
        match subscript doc make_path with
        | Raised e => (Raised e, w')
        | Returned make =>
            if eq_str make [] then
              (Raised (ValueError (py "VRM is invalid: " ++ n)), w')
            else
              match doc with
              | PyDict top =>
                  match dict_get (py "vrmLookupResponse") top with
                  | Some (PyDict lr) =>
                      match dict_get (py "vehicleDetails") lr with
                      | Some (PyDict vd) =>
                          (Returned
                             (PyDict
                                (dict_set (py "vrmLookupResponse")
                                   (PyDict
                                      (dict_set (py "vehicleDetails")
                                         (PyDict (dict_set (py "vrm") (PyStr n) vd))
                                         lr))
                                   top)), w')
                      | _ => (Returned PyNone, w')
                      end
                  | _ => (Returned PyNone, w')
                  end
              | _ => (Returned PyNone, w')
              end
        end
    end.
Proof.
  intros Hv Hs H200. unfold check_vrm. fold (normalised rt vrm). rewrite Hv.
  unfold bind, requests_post. fold (lookup_request rt vrm). rewrite Hs.
  apply Z.eqb_eq in H200. rewrite H200. unfold lift.
  destruct (json_loads rt (text r)) as [doc|e]; [|reflexivity].
  fold make_path. cbv zeta.
  destruct (subscript doc make_path) as [make|e] eqn:Hm; [|reflexivity].
  destruct (eq_str make []); [reflexivity|].
  unfold make_path in Hm. simpl in Hm.
  destruct doc as [| | | | | |top]; try discriminate Hm.
  simpl in Hm |- *.
  destruct (dict_get _ top) as [lrv|]; [|discriminate Hm].
  destruct lrv as [| | | | | |lr]; try discriminate Hm.
  simpl in Hm |- *.
  destruct (dict_get _ lr) as [vdv|]; [|discriminate Hm].
  destruct vdv as [| | | | | |vd]; try discriminate Hm.
  reflexivity.
Qed.

End Lookup.

(** Storing under a path of three keys, seen through [subscript]. *)
Lemma getitem_set_same (k : pystr) (x : pyval) (items : list (pystr * pyval)) :
  getitem (PyDict (dict_set k x items)) k = Returned x.
Proof. unfold getitem. now rewrite dict_get_set_same. Qed.

Lemma getitem_set_other (k k0 : pystr) (x : pyval)
  (items : list (pystr * pyval)) :
  str_eqb k k0 = false ->
  getitem (PyDict (dict_set k0 x items)) k = getitem (PyDict items) k.
Proof. intros H. unfold getitem. now rewrite dict_get_set_other. Qed.

Lemma getitem_found (k : pystr) (v : pyval) (items : list (pystr * pyval)) :
  dict_get k items = Some v -> getitem (PyDict items) k = Returned v.
Proof. intros H. unfold getitem. now rewrite H. Qed.

Lemma subscript_cons (v : pyval) (k : pystr) (keys : list pystr) :
  subscript v (k :: keys)
  = match getitem v k with
    | Returned x => subscript x keys
    | Raised e => Raised e
    end.
Proof. reflexivity. Qed.

Section NestedStore.

Variables k1 k2 k3 : pystr.
Variable x : pyval.
Variables top lr vd : list (pystr * pyval).
Hypothesis Htop : dict_get k1 top = Some (PyDict lr).
Hypothesis Hlr : dict_get k2 lr = Some (PyDict vd).

Lemma nested_store_hit :
  subscript
    (PyDict (dict_set k1 (PyDict (dict_set k2 (PyDict (dict_set k3 x vd)) lr))
               top))
    [k1; k2; k3]
  = Returned x.
Proof.
  rewrite subscript_cons, getitem_set_same.
  rewrite subscript_cons, getitem_set_same.
  rewrite subscript_cons, getitem_set_same. reflexivity.
Qed.

Lemma nested_store_miss (p : list pystr) :
  branches_off p [k1; k2; k3] = true ->
  subscript
    (PyDict (dict_set k1 (PyDict (dict_set k2 (PyDict (dict_set k3 x vd)) lr))
               top))
    p
  = subscript (PyDict top) p.
Proof.
  destruct p as [|a p]; [discriminate|]. simpl branches_off.
  destruct (str_eqb a k1) eqn:E1.
  - apply str_eqb_eq in E1; subst a. intros H.
    rewrite !subscript_cons, getitem_set_same, (getitem_found _ _ _ Htop).
    destruct p as [|b p]; [discriminate|]. simpl in H.
    destruct (str_eqb b k2) eqn:E2.
    + apply str_eqb_eq in E2; subst b.
      rewrite !subscript_cons, getitem_set_same, (getitem_found _ _ _ Hlr).
      destruct p as [|c p]; [discriminate|]. simpl in H.
      destruct (str_eqb c k3) eqn:E3.
      * destruct p; discriminate.
      * rewrite !subscript_cons, getitem_set_other by exact E3. reflexivity.
    + rewrite !subscript_cons, getitem_set_other by exact E2. reflexivity.
  - intros _. rewrite !subscript_cons, getitem_set_other by exact E1.
    reflexivity.
Qed.

End NestedStore.

(** A path of three keys that answers goes through three dictionaries. *)
Lemma subscript3_inv (doc v : pyval) (k1 k2 k3 : pystr) :
  subscript doc [k1; k2; k3] = Returned v ->
  exists top lr vd,
    doc = PyDict top /\ dict_get k1 top = Some (PyDict lr)
    /\ dict_get k2 lr = Some (PyDict vd) /\ dict_get k3 vd = Some v.
Proof.
  rewrite subscript_cons.
  destruct doc as [| | | | | |top]; try discriminate. unfold getitem at 1.
  destruct (dict_get k1 top) as [d1|] eqn:E1; [|discriminate].
  rewrite subscript_cons.
  destruct d1 as [| | | | | |lr]; try discriminate. unfold getitem at 1.
  destruct (dict_get k2 lr) as [d2|] eqn:E2; [|discriminate].
  rewrite subscript_cons.
  destruct d2 as [| | | | | |vd]; try discriminate. unfold getitem at 1.
  destruct (dict_get k3 vd) as [d3|] eqn:E3; [|discriminate].
  simpl. intros H; inversion H; subst.
  exists top, lr, vd. auto.
Qed.

(* ------------------------------------------------------------------ *)
(** ** Claims about the lookup *)

(** C1.  When the normalised VRM (spaces removed, upper-cased) is empty or
    holds a character that is not alphanumeric, [check_vrm] raises a
    [ValueError] whose text ends in that normalised VRM, and the world is
    left as it was: nothing has been put on the wire. *)
Theorem invalid_vrm_raises_before_any_request
  (rt : Runtime) (server : Upstream) (vrm : pystr) (w : World) :
  normalised rt vrm = []
  \/ Exists (fun c => unicode_isalnum rt c = false) (normalised rt vrm) ->
  check_vrm rt server vrm w
  = (Raised (ValueError (py "VRM is invalid: " ++ normalised rt vrm)), w).
Proof.
  intros H. apply check_vrm_invalid. apply str_isalnum_false_iff. exact H.
Qed.

Lemma invalid_vrm_raises_before_any_request_witness :
  check_vrm BasicLatin.runtime (always (answer 200 "OK" ford_body))
    (py "12!!") fresh
  = (Raised (ValueError (py "VRM is invalid: 12!!")), fresh).
Proof.
  apply (invalid_vrm_raises_before_any_request BasicLatin.runtime
           (always (answer 200 "OK" ford_body)) (py "12!!") fresh).
  right. apply Exists_cons_tl, Exists_cons_tl, Exists_cons_hd. reflexivity.
Defined.

(** C2.  For a valid VRM, an answer with status 200 whose
    [vehicleDetails] [make] is the empty string makes [check_vrm] raise a
    [ValueError], after the request has gone out. *)
Theorem empty_make_raises_ValueError
  (rt : Runtime) (server : Upstream) (vrm : pystr) (w : World)
  (r : http_response) (doc : pyval) :
  str_isalnum rt (normalised rt vrm) = true ->
  server (List.length (sent w)) (lookup_request rt vrm) = inl r ->
  status_code r = 200 ->
  json_loads rt (text r) = Returned doc ->
  subscript doc make_path = Returned (PyStr []) ->
  check_vrm rt server vrm w
  = (Raised (ValueError (py "VRM is invalid: " ++ normalised rt vrm)),
     put_on_wire (lookup_request rt vrm) w).
Proof.
  intros Hv Hs H200 Hdoc Hmake.
  rewrite (check_vrm_200 rt server vrm w r Hv Hs H200). cbv zeta.
  rewrite Hdoc, Hmake. reflexivity.
Qed.

Lemma empty_make_raises_ValueError_witness :
  check_vrm BasicLatin.runtime (always (answer 200 "OK" unknown_body))
    (py "ab12 cde") fresh
  = (Raised (ValueError (py "VRM is invalid: AB12CDE")),
     put_on_wire (lookup_request BasicLatin.runtime (py "ab12 cde")) fresh).
Proof.
  apply (empty_make_raises_ValueError BasicLatin.runtime
           (always (answer 200 "OK" unknown_body)) (py "ab12 cde") fresh
           (answer 200 "OK" unknown_body)
           (PyDict [(py "vrmLookupResponse",
                     PyDict [(py "vehicleDetails",
                              PyDict [(py "make", PyStr [])])])]));
    reflexivity.
Defined.

(** [raise_for_status] raises for the status codes 400 to 599, with the
    response attached, and for no other. *)
Lemma raise_for_status_error (r : http_response) (w : World) :
  400 <= status_code r < 600 ->
  exists msg, raise_for_status r w = (Raised (HTTPError msg r), w).
Proof.
  intros H. unfold raise_for_status.
  destruct (status_code r <? 500) eqn:E.
  - replace (400 <=? status_code r) with true by (symmetry; apply Z.leb_le; lia).
    simpl andb. cbv iota.
    destruct (str_of_int (status_code r)) as [|c s]; simpl; eexists; reflexivity.
  - rewrite andb_false_r.
    replace (500 <=? status_code r) with true
      by (symmetry; apply Z.leb_le; apply Z.ltb_ge in E; lia).
    replace (status_code r <? 600) with true by (symmetry; apply Z.ltb_lt; lia).
    simpl andb. cbv iota.
    destruct (str_of_int (status_code r)) as [|c s]; simpl; eexists; reflexivity.
Qed.

Lemma raise_for_status_quiet (r : http_response) (w : World) :
  status_code r < 400 \/ 600 <= status_code r ->
  raise_for_status r w = (Returned tt, w).
Proof.
  intros H. unfold raise_for_status.
  destruct H as [H|H].
  - replace (400 <=? status_code r) with false by (symmetry; apply Z.leb_gt; lia).
    replace (500 <=? status_code r) with false by (symmetry; apply Z.leb_gt; lia).
    reflexivity.
  - replace (status_code r <? 500) with false by (symmetry; apply Z.ltb_ge; lia).
    replace (status_code r <? 600) with false by (symmetry; apply Z.ltb_ge; lia).
    rewrite !andb_false_r. reflexivity.
Qed.

(** An answer with a status from 400 to 599 makes [check_vrm] raise an
    [HTTPError] that carries the response, and so its status code. *)
Lemma check_vrm_error_status
  (rt : Runtime) (server : Upstream) (vrm : pystr) (w : World)
  (r : http_response) :
  str_isalnum rt (normalised rt vrm) = true ->
  server (List.length (sent w)) (lookup_request rt vrm) = inl r ->
  400 <= status_code r < 600 ->
  exists msg,
    check_vrm rt server vrm w
    = (Raised (HTTPError msg r), put_on_wire (lookup_request rt vrm) w).
Proof.
  intros Hv Hs H.
  rewrite (check_vrm_not_200 rt server vrm w r Hv Hs) by lia.
  destruct (raise_for_status_error r
              (put_on_wire (lookup_request rt vrm) w) H) as [msg ->].
  exists msg. reflexivity.
Qed.

(** Any other status but 200 lets the call run to the end of the function
    body, which returns [None]. *)
Lemma check_vrm_quiet_status
  (rt : Runtime) (server : Upstream) (vrm : pystr) (w : World)
  (r : http_response) :
  str_isalnum rt (normalised rt vrm) = true ->
  server (List.length (sent w)) (lookup_request rt vrm) = inl r ->
  status_code r <> 200 ->
  status_code r < 400 \/ 600 <= status_code r ->
  check_vrm rt server vrm w
  = (Returned PyNone, put_on_wire (lookup_request rt vrm) w).
Proof.
  intros Hv Hs Hne H.
  rewrite (check_vrm_not_200 rt server vrm w r Hv Hs Hne).
  rewrite (raise_for_status_quiet r _ H). reflexivity.
Qed.

(** C3.  The lookup of the valid VRM [AB12CDE] answered with status 204
    does not raise an [HTTPError]: [check_vrm] returns [None], and [main]
    then ends in the [TypeError] of [pretty_print(None)]. *)
Theorem status_204_returns_None :
  check_vrm BasicLatin.runtime (always (answer 204 "No Content" []))
    (py "AB12CDE") fresh
  = (Returned PyNone,
     put_on_wire (lookup_request BasicLatin.runtime (py "AB12CDE")) fresh)
  /\ fst (main BasicLatin.runtime (always (answer 204 "No Content" []))
            [py "AB12CDE"] fresh)
     = Raised (TypeError (py "'NoneType' object is not subscriptable")).
Proof. split; vm_compute; reflexivity. Qed.

(** C4.  For a valid VRM, an answer with status 200 whose [make] is not the
    empty string makes [check_vrm] return the parsed document in which
    [vehicleDetails] [vrm] is the normalised VRM, and in which every path
    that leaves the path to that field answers as it did in the document
    received. *)
Theorem lookup_returns_document_with_normalised_vrm
  (rt : Runtime) (server : Upstream) (vrm : pystr) (w : World)
  (r : http_response) (doc make : pyval) :
  str_isalnum rt (normalised rt vrm) = true ->
  server (List.length (sent w)) (lookup_request rt vrm) = inl r ->
  status_code r = 200 ->
  json_loads rt (text r) = Returned doc ->
  subscript doc make_path = Returned make ->
  eq_str make [] = false ->
  exists doc',
    check_vrm rt server vrm w
    = (Returned doc', put_on_wire (lookup_request rt vrm) w)
    /\ subscript doc' vrm_path = Returned (PyStr (normalised rt vrm))
    /\ forall p, branches_off p vrm_path = true ->
                 subscript doc' p = subscript doc p.
Proof.
  intros Hv Hs H200 Hdoc Hmake Hne.
  rewrite (check_vrm_200 rt server vrm w r Hv Hs H200). cbv zeta.
  rewrite Hdoc, Hmake, Hne.
  destruct (subscript3_inv _ _ _ _ _ Hmake) as (top & lr & vd & -> & Ht & Hl & _).
  rewrite Ht, Hl. eexists. split; [reflexivity|]. split.
  - apply nested_store_hit.
  - intros p Hp. apply nested_store_miss; assumption.
Qed.

Lemma lookup_returns_document_with_normalised_vrm_witness :
  exists doc',
    check_vrm BasicLatin.runtime (always (answer 200 "OK" ford_body))
      (py "ab12 cde") fresh
    = (Returned doc',
       put_on_wire (lookup_request BasicLatin.runtime (py "ab12 cde")) fresh)
    /\ subscript doc' vrm_path = Returned (PyStr (py "AB12CDE"))
    /\ forall p, branches_off p vrm_path = true ->
                 subscript doc' p
                 = subscript
                     (match BasicLatin.loads ford_body with
                      | Returned d => d
                      | Raised _ => PyNone
                      end) p.
Proof.
  apply (lookup_returns_document_with_normalised_vrm BasicLatin.runtime
           (always (answer 200 "OK" ford_body)) (py "ab12 cde") fresh
           (answer 200 "OK" ford_body) _ (PyStr (py "Ford")));
    reflexivity.
Defined.

(* ------------------------------------------------------------------ *)
(** ** Normalisation *)

Lemma str_replace_drops (old : codepoint) (s : pystr) :
  ~ In old (str_replace old [] s).
Proof.
  unfold str_replace. induction s as [|c s IH]; simpl; [tauto|].
  destruct (codepoint_eqb c old) eqn:E; simpl; [exact IH|].
  intros [H|H]; [|tauto].
  subst. unfold codepoint_eqb in E. rewrite N.eqb_refl in E. discriminate.
Qed.

Lemma str_replace_absent (old : codepoint) (s : pystr) :
  ~ In old s -> str_replace old [] s = s.
Proof.
  unfold str_replace. induction s as [|c s IH]; simpl; [reflexivity|].
  intros H. destruct (codepoint_eqb c old) eqn:E.
  - unfold codepoint_eqb in E. apply N.eqb_eq in E. tauto.
  - simpl. f_equal. apply IH. tauto.
Qed.

Section Normalisation.

Variable rt : Runtime.

(** Two facts of the Unicode character database: upper-casing an
    upper-cased character changes nothing, and no character but the space
    has a space in its upper case. *)
Hypothesis upper_stable :
  forall c, str_upper rt (unicode_upper rt c) = unicode_upper rt c.
Hypothesis upper_no_space :
  forall c, c <> space -> ~ In space (unicode_upper rt c).

Lemma str_upper_app (a b : pystr) :
  str_upper rt (a ++ b) = str_upper rt a ++ str_upper rt b.
Proof. unfold str_upper. apply flat_map_app. Qed.

Lemma str_upper_idempotent (s : pystr) :
  str_upper rt (str_upper rt s) = str_upper rt s.
Proof.
  induction s as [|c s IH]; [reflexivity|].
  change (str_upper rt (c :: s)) with (unicode_upper rt c ++ str_upper rt s).
  now rewrite str_upper_app, upper_stable, IH.
Qed.

Lemma str_upper_no_space (s : pystr) :
  ~ In space s -> ~ In space (str_upper rt s).
Proof.
  induction s as [|c s IH]; simpl; [tauto|].
  intros H Hin.
  change (In space (unicode_upper rt c ++ str_upper rt s)) in Hin.
  apply in_app_or in Hin as [Hin|Hin].
  - apply (upper_no_space c); [intros ->; tauto | exact Hin].
  - apply IH; tauto.
Qed.

Lemma normalised_idempotent (vrm : pystr) :
  normalised rt (normalised rt vrm) = normalised rt vrm.
Proof.
  unfold normalised at 1.
  rewrite str_replace_absent.
  - unfold normalised. apply str_upper_idempotent.
  - unfold normalised. apply str_upper_no_space, str_replace_drops.
Qed.

End Normalisation.

Lemma request_body_text (rt : Runtime) (n : pystr) :
  json_dumps rt (request_content n) = request_body n.
Proof.
  unfold request_body, request_content, json_string. simpl.
  rewrite <- !app_assoc. reflexivity.
Qed.

(** [check_vrm] writes nothing, and a valid VRM costs exactly one request. *)
Lemma raise_for_status_world (r : http_response) (w : World) :
  snd (raise_for_status r w) = w.
Proof.
  unfold raise_for_status.
  destruct (if (400 <=? status_code r) && (status_code r <? 500) then _ else _);
    reflexivity.
Qed.

Lemma check_vrm_world_valid
  (rt : Runtime) (server : Upstream) (vrm : pystr) (w : World) :
  str_isalnum rt (normalised rt vrm) = true ->
  snd (check_vrm rt server vrm w) = put_on_wire (lookup_request rt vrm) w.
Proof.
  intros Hv.
  destruct (server (List.length (sent w)) (lookup_request rt vrm))
    as [r|msg] eqn:Hs.
  - destruct (Z.eq_dec (status_code r) 200) as [H200|Hne].
    + rewrite (check_vrm_200 rt server vrm w r Hv Hs H200). cbv zeta.
      repeat match goal with
             | |- context [match ?x with _ => _ end] => destruct x
             end; reflexivity.
    + rewrite (check_vrm_not_200 rt server vrm w r Hv Hs Hne).
      pose proof (raise_for_status_world r
                    (put_on_wire (lookup_request rt vrm) w)) as Hw.
      destruct (raise_for_status r _) as [[[]|e] w']; exact Hw.
  - now rewrite (check_vrm_transport_failure rt server vrm msg w Hv Hs).
Qed.

Lemma basic_latin_upper_stable (c : codepoint) :
  str_upper BasicLatin.runtime (BasicLatin.upper c) = BasicLatin.upper c.
Proof.
  unfold str_upper, BasicLatin.upper, BasicLatin.in_range. simpl.
  destruct ((97 <=? c)%N && (c <=? 122)%N) eqn:E; simpl.
  - apply andb_true_iff in E as [E1 E2].
    apply N.leb_le in E1. apply N.leb_le in E2.
    unfold BasicLatin.upper, BasicLatin.in_range.
    replace (97 <=? c - 32)%N with false by (symmetry; apply N.leb_gt; lia).
    reflexivity.
  - unfold BasicLatin.upper, BasicLatin.in_range. rewrite E. reflexivity.
Qed.

Lemma basic_latin_upper_no_space (c : codepoint) :
  c <> space -> ~ In space (BasicLatin.upper c).
Proof.
  unfold BasicLatin.upper, BasicLatin.in_range, space. intros Hc.
  destruct ((97 <=? c)%N && (c <=? 122)%N) eqn:E; simpl.
  - apply andb_true_iff in E as [E1 E2].
    apply N.leb_le in E1. apply N.leb_le in E2. intros [H|[]]. lia.
  - intros [H|[]]. congruence.
Qed.

(** C5.  [check_vrm] on a string does what it does on the normalised form
    of that string (spaces removed, upper-cased): the same result or the
    same exception and the same world afterwards; for a valid VRM the one
    request sent has the body whose [vRM] is the normalised value. *)
Theorem check_vrm_normalises_before_validating
  (rt : Runtime) (server : Upstream) :
  (forall c, str_upper rt (unicode_upper rt c) = unicode_upper rt c) ->
  (forall c, c <> space -> ~ In space (unicode_upper rt c)) ->
  forall (vrm : pystr) (w : World),
    check_vrm rt server vrm w = check_vrm rt server (normalised rt vrm) w
    /\ (str_isalnum rt (normalised rt vrm) = true ->
        sent (snd (check_vrm rt server vrm w))
        = sent w ++ [lookup_request rt vrm]
        /\ req_data (lookup_request rt vrm) = request_body (normalised rt vrm)).
Proof.
  intros Hstable Hspace vrm w. split.
  - unfold check_vrm.
    fold (normalised rt vrm). fold (normalised rt (normalised rt vrm)).
    now rewrite (normalised_idempotent rt Hstable Hspace).
  - intros Hv. split.
    + now rewrite (check_vrm_world_valid rt server vrm w Hv).
    + apply request_body_text.
Qed.

Lemma check_vrm_normalises_before_validating_witness :
  check_vrm BasicLatin.runtime (always (answer 200 "OK" ford_body))
    (py "ab12 cde") fresh
  = check_vrm BasicLatin.runtime (always (answer 200 "OK" ford_body))
      (py "AB12CDE") fresh
  /\ sent (snd (check_vrm BasicLatin.runtime
                  (always (answer 200 "OK" ford_body)) (py "ab12 cde") fresh))
     = [lookup_request BasicLatin.runtime (py "ab12 cde")]
  /\ req_data (lookup_request BasicLatin.runtime (py "ab12 cde"))
     = quoted ("{'vrmLookupRequest': {'vRM': 'AB12CDE', "
               ++ "'country': 'UK', 'date': {}}}")%string.
Proof.
  destruct (check_vrm_normalises_before_validating BasicLatin.runtime
              (always (answer 200 "OK" ford_body))
              basic_latin_upper_stable basic_latin_upper_no_space
              (py "ab12 cde") fresh) as [H1 H2].
  split; [exact H1 | exact (H2 eq_refl)].
Defined.

(* ------------------------------------------------------------------ *)
(** ** Repeated lookups *)

Lemma raise_for_status_result (r : http_response) (w w' : World) :
  fst (raise_for_status r w) = fst (raise_for_status r w').
Proof.
  unfold raise_for_status.
  destruct (if (400 <=? status_code r) && (status_code r <? 500) then _ else _);
    reflexivity.
Qed.

(** What a lookup of a valid VRM returns or raises is decided by the answer
    given to its own request, whatever the world was before. *)
Lemma check_vrm_result_by_answer
  (rt : Runtime) (server : Upstream) (vrm : pystr) (w wa : World) :
  str_isalnum rt (normalised rt vrm) = true ->
  server (List.length (sent wa)) (lookup_request rt vrm)
  = server (List.length (sent w)) (lookup_request rt vrm) ->
  fst (check_vrm rt server vrm wa) = fst (check_vrm rt server vrm w).
Proof.
  intros Hv Hsame.
  destruct (server (List.length (sent w)) (lookup_request rt vrm))
    as [r|msg] eqn:Hs.
  - destruct (Z.eq_dec (status_code r) 200) as [H200|Hne].
    + rewrite (check_vrm_200 rt server vrm w r Hv Hs H200).
      rewrite (check_vrm_200 rt server vrm wa r Hv Hsame H200). cbv zeta.
      repeat match goal with
             | |- context [match ?x with _ => _ end] => destruct x
             end; reflexivity.
    + rewrite (check_vrm_not_200 rt server vrm w r Hv Hs Hne).
      rewrite (check_vrm_not_200 rt server vrm wa r Hv Hsame Hne).
      pose proof (raise_for_status_result r
                    (put_on_wire (lookup_request rt vrm) wa)
                    (put_on_wire (lookup_request rt vrm) w)) as Hr.
      destruct (raise_for_status r (put_on_wire _ wa)) as [[[]|e] w1];
        destruct (raise_for_status r (put_on_wire _ w)) as [[[]|e'] w2];
        simpl in Hr |- *; congruence.
  - rewrite (check_vrm_transport_failure rt server vrm msg w Hv Hs).
    rewrite (check_vrm_transport_failure rt server vrm msg wa Hv Hsame).
    reflexivity.
Qed.

(** C9.  Every lookup of a valid VRM puts exactly one POST for the fixed
    endpoint on the wire, also when the same VRM was looked up by the call
    just before; and what the second call returns or raises is what a call
    in any other world would, given the same answer to its request: nothing
    of the first call is kept. *)
Theorem every_lookup_sends_one_fresh_request
  (rt : Runtime) (server : Upstream) (vrm : pystr) (w : World) :
  str_isalnum rt (normalised rt vrm) = true ->
  let w1 := snd (check_vrm rt server vrm w) in
  let w2 := snd (check_vrm rt server vrm w1) in
  sent w1 = sent w ++ [lookup_request rt vrm]
  /\ sent w2 = sent w ++ [lookup_request rt vrm; lookup_request rt vrm]
  /\ req_method (lookup_request rt vrm) = py "POST"
  /\ req_url (lookup_request rt vrm) = endpoint
  /\ forall wa,
       server (List.length (sent wa)) (lookup_request rt vrm)
       = server (List.length (sent w1)) (lookup_request rt vrm) ->
       fst (check_vrm rt server vrm wa) = fst (check_vrm rt server vrm w1).
Proof.
  intros Hv w1 w2. subst w2 w1.
  rewrite !(check_vrm_world_valid rt server vrm _ Hv).
  repeat split.
  - simpl. now rewrite <- app_assoc.
  - intros wa Hsame. apply check_vrm_result_by_answer; assumption.
Qed.

Lemma every_lookup_sends_one_fresh_request_witness :
  let server := first_then (answer 200 "OK" ford_body)
                  (answer 200 "OK" unknown_body) in
  let w1 := snd (check_vrm BasicLatin.runtime server (py "AB12CDE") fresh) in
  let w2 := snd (check_vrm BasicLatin.runtime server (py "AB12CDE") w1) in
  sent w1 = [lookup_request BasicLatin.runtime (py "AB12CDE")]
  /\ sent w2 = [lookup_request BasicLatin.runtime (py "AB12CDE");
                lookup_request BasicLatin.runtime (py "AB12CDE")]
  /\ req_method (lookup_request BasicLatin.runtime (py "AB12CDE")) = py "POST"
  /\ req_url (lookup_request BasicLatin.runtime (py "AB12CDE")) = endpoint
  /\ forall wa,
       server (List.length (sent wa))
         (lookup_request BasicLatin.runtime (py "AB12CDE"))
       = server (List.length (sent w1))
           (lookup_request BasicLatin.runtime (py "AB12CDE")) ->
       fst (check_vrm BasicLatin.runtime server (py "AB12CDE") wa)
       = fst (check_vrm BasicLatin.runtime server (py "AB12CDE") w1).
Proof.
  exact (every_lookup_sends_one_fresh_request BasicLatin.runtime
           (first_then (answer 200 "OK" ford_body)
              (answer 200 "OK" unknown_body))
           (py "AB12CDE") fresh eq_refl).
Defined.

(** The second of two lookups of one VRM gives what the server says the
    second time, not what the first lookup gave. *)
Example second_lookup_is_not_the_first :
  let server := first_then (answer 200 "OK" ford_body)
                  (answer 200 "OK" unknown_body) in
  let first := check_vrm BasicLatin.runtime server (py "AB12CDE") fresh in
  let second := check_vrm BasicLatin.runtime server (py "AB12CDE") (snd first) in
  (exists doc, fst first = Returned doc)
  /\ fst second = Raised (ValueError (py "VRM is invalid: AB12CDE")).
Proof. split; [eexists|]; vm_compute; reflexivity. Qed.

(* ------------------------------------------------------------------ *)
(** ** The report *)

Lemma subscript_step (doc lr : pyval) (k : pystr) (p : list pystr) :
  getitem doc k = Returned lr -> subscript doc (k :: p) = subscript lr p.
Proof. intros H. rewrite subscript_cons, H. reflexivity. Qed.

Lemma subscript_stop (doc : pyval) (k : pystr) (p : list pystr) (e : exn) :
  getitem doc k = Raised e -> subscript doc (k :: p) = Raised e.
Proof. intros H. rewrite subscript_cons, H. reflexivity. Qed.

Lemma py_format_to_bool (rt : Runtime) (v : pyval) :
  py_format rt (to_bool v) = bool_text (eq_int v 1).
Proof. unfold to_bool. destruct (eq_int v 1); reflexivity. Qed.

(** [pretty_print] reads its sixteen values and then prints the report made
    of them; when a value cannot be read nothing is printed. *)
Lemma pretty_print_reads_then_prints (rt : Runtime) (doc : pyval) (w : World) :
  pretty_print rt doc w
  = match read_fields doc with
    | Returned f => (Returned tt, write (report rt f ++ [newline]) w)
    | Raised e => (Raised e, w)
    end.
Proof.
  unfold pretty_print, read_fields, details_path, charge_path.
  unfold bind at 1. unfold lift at 1.
  destruct (getitem doc (py "vrmLookupResponse")) as [lr|e] eqn:Hlr.
  - rewrite !(subscript_step doc lr _ _ Hlr).
    cbv beta zeta delta [bind lift and_then].
    repeat match goal with
           | |- context [subscript lr ?p] =>
               destruct (subscript lr p); [|reflexivity]
           end.
    unfold print, report, report_lines.
    cbn [f_vrm f_make f_model f_colour f_taxCode
      f_isCcChargeable f_isLezChargeable f_isUlezChargeable f_isEsChargeable
      f_inAutoPay f_inAutoPayExceptions f_isCc100PcDiscounted
      f_isUlez100PcDiscounted f_isULEZExempt f_uLEZVehicleListType
      f_isULEZNonChargeable str_join List.concat map].
    rewrite !py_format_to_bool, <- !app_assoc. reflexivity.
  - rewrite (subscript_stop doc _ _ e Hlr). reflexivity.
Qed.

Lemma read_fields_flags (doc : pyval) (f : report_fields) :
  read_fields doc = Returned f ->
  subscript doc (charge_path "isCcChargeable") = Returned (f_isCcChargeable f)
  /\ subscript doc (charge_path "isLezChargeable")
     = Returned (f_isLezChargeable f)
  /\ subscript doc (charge_path "isUlezChargeable")
     = Returned (f_isUlezChargeable f)
  /\ subscript doc (charge_path "isEsChargeable") = Returned (f_isEsChargeable f)
  /\ subscript doc (details_path "isULEZExempt") = Returned (f_isULEZExempt f)
  /\ subscript doc (details_path "isULEZNonChargeable")
     = Returned (f_isULEZNonChargeable f).
Proof.
  unfold read_fields.
  repeat match goal with
         | |- context [and_then (subscript doc ?p) _] =>
             destruct (subscript doc p) eqn:?; cbn [and_then]; [|discriminate]
         end.
  intros H; inversion H; subst; cbn. repeat split; reflexivity.
Qed.

(** Lines of a text. *)
Lemma str_lines_aux_skip (l a s cur : pystr) :
  In l (str_lines_aux [] s) ->
  In l (str_lines_aux cur (a ++ [newline] ++ s)).
Proof.
  intros H. revert cur. induction a as [|c a IH]; intros cur; simpl.
  - right. exact H.
  - destruct (codepoint_eqb c newline); [right|]; apply IH.
Qed.

Lemma str_lines_aux_line (l s cur : pystr) :
  ~ In newline l ->
  str_lines_aux cur (l ++ [newline] ++ s)
  = (rev cur ++ l) :: str_lines_aux [] s.
Proof.
  revert cur. induction l as [|c l IH]; intros cur Hl; simpl.
  - now rewrite app_nil_r.
  - destruct (codepoint_eqb c newline) eqn:E.
    + unfold codepoint_eqb in E. apply N.eqb_eq in E. subst. simpl in Hl. tauto.
    + rewrite IH by (simpl in Hl; tauto). simpl. now rewrite <- app_assoc.
Qed.

Lemma line_of_lines (ls : list pystr) (l tail : pystr) :
  In l ls -> ~ In newline l ->
  In l (str_lines_aux []
          (List.concat (map (fun x => x ++ [newline]) ls) ++ tail)).
Proof.
  intros Hin Hl. induction ls as [|x ls IH]; [destruct Hin|].
  simpl. rewrite <- !app_assoc.
  destruct Hin as [->|Hin].
  - rewrite str_lines_aux_line by exact Hl. left. reflexivity.
  - apply str_lines_aux_skip, IH, Hin.
Qed.

Lemma line_of_report (rt : Runtime) (f : report_fields) (l : pystr) :
  In l (report_lines rt f) -> ~ In newline l ->
  In l (str_lines (report rt f ++ [newline])).
Proof.
  intros Hin Hl.
  change (In l (str_lines_aux []
                  ([] ++ [newline]
                   ++ (List.concat
                         (map (fun x => x ++ [newline]) (report_lines rt f))
                       ++ [newline])))).
  apply str_lines_aux_skip, line_of_lines; assumption.
Qed.

Lemma flag_has_no_newline (label : pystr) (b : bool) :
  existsb (codepoint_eqb newline) label = false ->
  ~ In newline (label ++ bool_text b).
Proof.
  intros H Hin. apply in_app_or in Hin as [Hin|Hin].
  - assert (existsb (codepoint_eqb newline) label = true) as E
        by (apply existsb_exists; exists newline; split; [exact Hin|reflexivity]).
    congruence.
  - destruct b; simpl in Hin; repeat destruct Hin as [Hin|Hin];
      try discriminate Hin; exact Hin.
Qed.

Lemma not_in_by_eqb (l : pystr) (ls : list pystr) :
  existsb (str_eqb l) ls = false -> ~ In l ls.
Proof.
  intros H Hin.
  assert (existsb (str_eqb l) ls = true) as E
      by (apply existsb_exists; exists l; split; [exact Hin|apply str_eqb_refl]).
  congruence.
Qed.

(** C6, as the script has it.  [to_bool] answers with the truth of
    [number == 1]: [True] for the integer 1 (and for what Python's [==]
    identifies with it), [False] for every other value, 0 and [None]
    included.  [pretty_print] passes the four chargeability flags and the
    two ULEZ flags through it and prints each as a line that ends in
    Python's spelling of the boolean: for [isUlezChargeable] 1 the report
    holds the line [    ULEZ: True], for 0 the line [    ULEZ: False]. *)
Theorem flags_are_rendered_as_True_or_False (rt : Runtime) :
  (forall v, to_bool v = PyBool (eq_int v 1))
  /\ to_bool (PyInt 1) = PyBool true
  /\ (forall n, n <> 1 -> to_bool (PyInt n) = PyBool false)
  /\ to_bool PyNone = PyBool false
  /\ forall doc w w',
       pretty_print rt doc w = (Returned tt, w') ->
       exists text,
         stdout w' = stdout w ++ text
         /\ Forall (flag_line_rendered doc text) flag_lines
         /\ (subscript doc (charge_path "isUlezChargeable")
             = Returned (PyInt 1) ->
             In (py "    ULEZ: True") (str_lines text))
         /\ (subscript doc (charge_path "isUlezChargeable")
             = Returned (PyInt 0) ->
             In (py "    ULEZ: False") (str_lines text)).
Proof.
  split; [intros v; unfold to_bool; destruct (eq_int v 1); reflexivity|].
  split; [reflexivity|].
  split; [intros n Hn; unfold to_bool; simpl;
          apply Z.eqb_neq in Hn; now rewrite Hn|].
  split; [reflexivity|].
  intros doc w w' H. rewrite pretty_print_reads_then_prints in H.
  destruct (read_fields doc) as [f|e] eqn:Hf; [|discriminate].
  inversion H; subst w'; clear H.
  destruct (read_fields_flags doc f Hf) as (Hcc & Hlez & Hulez & Hes & Hex & Hnc).
  assert (forall label v, In (py label ++ bool_text (eq_int v 1))
                            (report_lines rt f) ->
            existsb (codepoint_eqb newline) (py label) = false ->
            In (py label ++ bool_text (eq_int v 1))
              (str_lines (report rt f ++ [newline]))) as Hline.
  { intros label v Hin Hnl. apply line_of_report; [exact Hin|].
    apply flag_has_no_newline, Hnl. }
  assert (In (py "    ULEZ: " ++ bool_text (eq_int (f_isUlezChargeable f) 1))
            (str_lines (report rt f ++ [newline]))) as HU.
  { apply Hline; [simpl; tauto | reflexivity]. }
  exists (report rt f ++ [newline]). split; [reflexivity|]. split.
  - unfold flag_lines.
    repeat (apply Forall_cons;
            [eexists; split;
             [eassumption | apply Hline; [simpl; tauto | reflexivity]]|]).
    apply Forall_nil.
  - split; intros Hv; rewrite Hulez in Hv; inversion Hv as [Hv'];
      rewrite Hv' in HU; exact HU.
Qed.

(** Against C6 as written: for [isUlezChargeable] 1 the report is printed,
    and neither one of its lines nor any part of its text is [ULEZ: true]. *)
Lemma report_without_lowercase_true :
  let run := pretty_print BasicLatin.runtime (ford_details (PyInt 1)) fresh in
  fst run = Returned tt
  /\ subscript (ford_details (PyInt 1)) (charge_path "isUlezChargeable")
     = Returned (PyInt 1)
  /\ ~ In (py "ULEZ: true") (str_lines (stdout (snd run)))
  /\ str_contains (py "ULEZ: true") (stdout (snd run)) = false.
Proof.
  cbv zeta. split; [vm_compute; reflexivity|]. split; [vm_compute; reflexivity|].
  split; [apply not_in_by_eqb|]; vm_compute; reflexivity.
Qed.

Lemma flags_are_rendered_as_True_or_False_witness :
  In (py "    ULEZ: True")
    (str_lines
       (stdout (snd (pretty_print BasicLatin.runtime (ford_details (PyInt 1))
                       fresh)))).
Proof.
  destruct (proj2 (proj2 (proj2 (proj2
              (flags_are_rendered_as_True_or_False BasicLatin.runtime))))
              (ford_details (PyInt 1)) fresh
              (snd (pretty_print BasicLatin.runtime (ford_details (PyInt 1))
                      fresh))
              eq_refl) as (text & Hout & _ & Htrue & _).
  rewrite Hout. apply Htrue. reflexivity.
Defined.

(** Values Python's [==] identifies with 1, and values it does not. *)
Example to_bool_samples :
  to_bool (PyBool true) = PyBool true
  /\ to_bool (PyFloat float_one) = PyBool true
  /\ to_bool (PyInt 0) = PyBool false
  /\ to_bool (PyStr (py "1")) = PyBool false
  /\ to_bool (PyInt 2) = PyBool false.
Proof. repeat split. Qed.

(* ------------------------------------------------------------------ *)
(** ** The interactive loop *)

Lemma getitem_raises (v : pyval) (k : pystr) (e : exn) :
  getitem v k = Raised e -> caught e = false.
Proof.
  unfold getitem. destruct v; try (intros H; inversion H; reflexivity).
  destruct (dict_get k items); intros H; inversion H; reflexivity.
Qed.

Lemma subscript_raises (p : list pystr) (v : pyval) (e : exn) :
  subscript v p = Raised e -> caught e = false.
Proof.
  revert v. induction p as [|k p IH]; intros v; [discriminate|].
  rewrite subscript_cons. destruct (getitem v k) as [x|e'] eqn:E.
  - apply IH.
  - intros H; inversion H; subst. eapply getitem_raises; eassumption.
Qed.

Lemma read_fields_raises (doc : pyval) (e : exn) :
  read_fields doc = Raised e -> caught e = false.
Proof.
  unfold read_fields.
  repeat match goal with
         | |- context [and_then (subscript doc ?p) _] =>
             destruct (subscript doc p) eqn:?; cbn [and_then];
             [|intros H; inversion H; subst;
               eapply subscript_raises; eassumption]
         end.
  discriminate.
Qed.

Lemma getitem_raises_kind (v : pyval) (k : pystr) (e : exn) :
  getitem v k = Raised e ->
  (exists key, e = KeyError key) \/ (exists msg, e = TypeError msg).
Proof.
  unfold getitem. destruct v;
    try (intros H; inversion H; right; eexists; reflexivity).
  destruct (dict_get k items); intros H; inversion H.
  left; eexists; reflexivity.
Qed.

Lemma subscript_raises_kind (p : list pystr) (v : pyval) (e : exn) :
  subscript v p = Raised e ->
  (exists key, e = KeyError key) \/ (exists msg, e = TypeError msg).
Proof.
  revert v. induction p as [|k p IH]; intros v; [discriminate|].
  rewrite subscript_cons. destruct (getitem v k) as [x|e'] eqn:E.
  - apply IH.
  - intros H; inversion H; subst. eapply getitem_raises_kind; eassumption.
Qed.

Lemma read_fields_raises_kind (doc : pyval) (e : exn) :
  read_fields doc = Raised e ->
  (exists key, e = KeyError key) \/ (exists msg, e = TypeError msg).
Proof.
  unfold read_fields.
  repeat match goal with
         | |- context [and_then (subscript doc ?p) _] =>
             destruct (subscript doc p) eqn:?; cbn [and_then];
             [|intros H; inversion H; subst;
               eapply subscript_raises_kind; eassumption]
         end.
  discriminate.
Qed.

Section Loop.

Variable rt : Runtime.
Variable server : Upstream.

Lemma main_nil (w : World) :
  main rt server [] w
  = (Raised (EOFError (py "EOF when reading a line")), write prompt w).
Proof.
  unfold main, bind, print, raise. simpl str_join. now rewrite app_nil_r.
Qed.

Lemma main_cons (vrm : pystr) (rest : list pystr) (w : World) :
  main rt server (vrm :: rest) w
  = match main_body rt server vrm (write prompt w) with
    | (Returned _, w') => main rt server rest w'
    | (Raised e, w') => (Raised e, w')
    end.
Proof.
  cbn [main]. unfold bind at 1. unfold print at 1. simpl str_join.
  rewrite app_nil_r. unfold bind at 1. reflexivity.
Qed.

Lemma main_body_caught (vrm : pystr) (w w1 : World) (e : exn) :
  check_vrm rt server vrm w = (Raised e, w1) ->
  caught e = true ->
  main_body rt server vrm w
  = (Returned tt, write (error_line (str_of_exn rt e)) w1).
Proof.
  intros Hc He. unfold main_body, try_except, bind. rewrite Hc.
  fold (caught e). rewrite He. reflexivity.
Qed.

Lemma main_body_uncaught (vrm : pystr) (w w1 : World) (e : exn) :
  check_vrm rt server vrm w = (Raised e, w1) ->
  caught e = false ->
  main_body rt server vrm w = (Raised e, w1).
Proof.
  intros Hc He. unfold main_body, try_except, bind. rewrite Hc.
  fold (caught e). rewrite He. reflexivity.
Qed.


Lemma main_body_no_report (vrm : pystr) (w w1 : World) (doc : pyval)
  (e : exn) :
  check_vrm rt server vrm w = (Returned doc, w1) ->
  read_fields doc = Raised e ->
  main_body rt server vrm w = (Raised e, w1).
Proof.
  intros Hc Hf. unfold main_body, try_except, bind. rewrite Hc.
  rewrite pretty_print_reads_then_prints, Hf.
  fold (caught e). rewrite (read_fields_raises doc e Hf). reflexivity.
Qed.



(** A body that is not JSON: the decode error is a [ValueError], so the
    loop prints its line and goes on. *)
Lemma check_vrm_malformed (vrm : pystr) (w : World) (r : http_response)
  (e : exn) :
  str_isalnum rt (normalised rt vrm) = true ->
  server (List.length (sent w)) (lookup_request rt vrm) = inl r ->
  status_code r = 200 ->
  json_loads rt (text r) = Raised e ->
  check_vrm rt server vrm w
  = (Raised e, put_on_wire (lookup_request rt vrm) w).
Proof.
  intros Hv Hs H200 Hj.
  rewrite (check_vrm_200 rt server vrm w r Hv Hs H200). cbv zeta.
  now rewrite Hj.
Qed.

Lemma check_vrm_missing_field (vrm : pystr) (w : World) (r : http_response)
  (doc : pyval) (e : exn) :
  str_isalnum rt (normalised rt vrm) = true ->
  server (List.length (sent w)) (lookup_request rt vrm) = inl r ->
  status_code r = 200 ->
  json_loads rt (text r) = Returned doc ->
  subscript doc make_path = Raised e ->
  check_vrm rt server vrm w
  = (Raised e, put_on_wire (lookup_request rt vrm) w).
Proof.
  intros Hv Hs H200 Hj Hm.
  rewrite (check_vrm_200 rt server vrm w r Hv Hs H200). cbv zeta.
  now rewrite Hj, Hm.
Qed.

End Loop.

(* ------------------------------------------------------------------ *)
(** ** Claims about the loop *)

Lemma main_body_footprint
  (rt : Runtime) (server : Upstream) (vrm : pystr) (w : World) :
  exists reqs out,
    sent (snd (main_body rt server vrm w)) = sent w ++ reqs
    /\ stdout (snd (main_body rt server vrm w)) = stdout w ++ out
    /\ (List.length reqs <= 1)%nat
    /\ Forall is_lookup_post reqs.
Proof.
  assert (exists reqs,
            snd (check_vrm rt server vrm w)
            = {| sent := sent w ++ reqs; stdout := stdout w |}
            /\ (List.length reqs <= 1)%nat /\ Forall is_lookup_post reqs)
    as (reqs & Hw & Hlen & Hposts).
  { destruct (str_isalnum rt (normalised rt vrm)) eqn:Hv.
    - exists [lookup_request rt vrm].
      rewrite (check_vrm_world_valid rt server vrm w Hv).
      repeat split; auto. repeat constructor.
    - exists []. rewrite (check_vrm_invalid rt server vrm w Hv).
      destruct w; simpl. rewrite app_nil_r. repeat split; auto. }
  exists reqs.
  unfold main_body, try_except, bind.
  destruct (check_vrm rt server vrm w) as [[doc|e] w1]; simpl in Hw; subst w1.
  - rewrite pretty_print_reads_then_prints.
    destruct (read_fields doc) as [f|e] eqn:Hf.
    + eexists. simpl. repeat split; auto.
    + fold (caught e). rewrite (read_fields_raises doc e Hf).
      exists []. simpl. rewrite app_nil_r. repeat split; auto.
  - destruct (existsb (isinstance e) [ValueError_class; HTTPError_class]).
    + eexists. simpl. repeat split; auto.
    + exists []. simpl. rewrite app_nil_r. repeat split; auto.
Qed.

Lemma stdout_write (t : pystr) (w : World) :
  stdout (write t w) = stdout w ++ t.
Proof. reflexivity. Qed.

(** [check_vrm] writes nothing. *)
Lemma check_vrm_keeps_stdout
  (rt : Runtime) (server : Upstream) (vrm : pystr) (w : World) :
  stdout (snd (check_vrm rt server vrm w)) = stdout w.
Proof.
  destruct (str_isalnum rt (normalised rt vrm)) eqn:Hv.
  - now rewrite (check_vrm_world_valid rt server vrm w Hv).
  - now rewrite (check_vrm_invalid rt server vrm w Hv).
Qed.

(** [main] keeps what was written before and starts by writing the
    prompt. *)
Lemma main_prompts_first
  (rt : Runtime) (server : Upstream) (stdin : list pystr) (w : World) :
  exists out,
    stdout (snd (main rt server stdin w)) = stdout w ++ prompt ++ out.
Proof.
  revert w. induction stdin as [|vrm rest IH]; intros w.
  - rewrite main_nil. exists []. rewrite app_nil_r. reflexivity.
  - rewrite main_cons.
    destruct (main_body_footprint rt server vrm (write prompt w))
      as (reqs1 & out1 & _ & Ho1 & _).
    destruct (main_body rt server vrm (write prompt w)) as [[[]|e] w1];
      simpl in Ho1.
    + destruct (IH w1) as (out2 & Ho2).
      exists (out1 ++ prompt ++ out2). rewrite Ho2, Ho1.
      now rewrite <- !app_assoc.
    + exists out1. simpl. rewrite Ho1. now rewrite <- !app_assoc.
Qed.

(** A pass of the loop in which [check_vrm] raises an exception the
    [except] clause takes: the body returns having written the error line
    after what [check_vrm] left, [main] goes on with the lines left, and
    its output is the prompt, the error line, the next prompt and what
    follows. *)
Lemma pass_with_caught_error
  (rt : Runtime) (server : Upstream) (vrm : pystr) (rest : list pystr)
  (w w1 : World) (e : exn) :
  check_vrm rt server vrm (write prompt w) = (Raised e, w1) ->
  caught e = true ->
  main_body rt server vrm (write prompt w)
  = (Returned tt, write (error_line (str_of_exn rt e)) w1)
  /\ main rt server (vrm :: rest) w
     = main rt server rest (write (error_line (str_of_exn rt e)) w1)
  /\ exists out,
       stdout (snd (main rt server (vrm :: rest) w))
       = stdout w ++ prompt ++ error_line (str_of_exn rt e) ++ prompt ++ out.
Proof.
  intros Hc He.
  pose proof (main_body_caught rt server vrm _ w1 e Hc He) as Hb.
  assert (main rt server (vrm :: rest) w
          = main rt server rest (write (error_line (str_of_exn rt e)) w1))
    as Hm by (rewrite main_cons, Hb; reflexivity).
  split; [exact Hb|]. split; [exact Hm|].
  destruct (main_prompts_first rt server rest
              (write (error_line (str_of_exn rt e)) w1)) as (out & Ho).
  exists out. rewrite Hm, Ho.
  pose proof (check_vrm_keeps_stdout rt server vrm (write prompt w)) as Hk.
  rewrite Hc in Hk. cbn [snd] in Hk. rewrite stdout_write in Hk.
  rewrite stdout_write, Hk. now rewrite <- !app_assoc.
Qed.





(** Against C8 as written: a body that is JSON but not of the expected
    shape ends the loop.  For the body [{}] the [KeyError] of [check_vrm]
    passes the [except] clause, no error line is printed and the second
    line of input is never asked for. *)
Lemma empty_object_ends_loop :
  let server := always (answer 200 "OK" empty_object_body) in
  main BasicLatin.runtime server [py "AB12CDE"; py "XY34ZZZ"] fresh
  = (Raised (KeyError (py "vrmLookupResponse")),
     put_on_wire (lookup_request BasicLatin.runtime (py "AB12CDE"))
       (write prompt fresh)).
Proof. vm_compute. reflexivity. Qed.

(** C8, as the script has it.  For a valid VRM answered with status 200:
    when [json.loads] rejects the body with a [JSONDecodeError], the body
    of the loop returns having written the error line, and the output of
    [main] goes on with the next prompt; when the body parses but
    [vrmLookupResponse], [vehicleDetails] or [make] cannot be read from it,
    [check_vrm] raises a [KeyError] or [TypeError], the [except] clause does
    not take it and [main] ends in it having written the prompt only; when
    [check_vrm] returns but a value of the report cannot be read,
    [pretty_print] raises such an exception and [main] ends the same
    way. *)
Theorem unexpected_body_in_the_loop
  (rt : Runtime) (server : Upstream) (vrm : pystr) (rest : list pystr)
  (w : World) (r : http_response) :
  str_isalnum rt (normalised rt vrm) = true ->
  server (List.length (sent w)) (lookup_request rt vrm) = inl r ->
  status_code r = 200 ->
  let w1 := put_on_wire (lookup_request rt vrm) (write prompt w) in
  (forall msg,
     json_loads rt (text r) = Raised (JSONDecodeError msg) ->
     main_body rt server vrm (write prompt w)
     = (Returned tt, write (error_line msg) w1)
     /\ main rt server (vrm :: rest) w
        = main rt server rest (write (error_line msg) w1)
     /\ exists out,
          stdout (snd (main rt server (vrm :: rest) w))
          = stdout w ++ prompt ++ error_line msg ++ prompt ++ out)
  /\ (forall doc e,
        json_loads rt (text r) = Returned doc ->
        subscript doc make_path = Raised e ->
        main rt server (vrm :: rest) w = (Raised e, w1)
        /\ caught e = false
        /\ ((exists key, e = KeyError key) \/ (exists m, e = TypeError m)))
  /\ (forall doc e,
        check_vrm rt server vrm (write prompt w) = (Returned doc, w1) ->
        read_fields doc = Raised e ->
        main rt server (vrm :: rest) w = (Raised e, w1)
        /\ caught e = false
        /\ ((exists key, e = KeyError key) \/ (exists m, e = TypeError m))).
Proof.
  intros Hv Hs H200 w1. split; [|split].
  - intros msg Hj.
    apply (pass_with_caught_error rt server vrm rest w w1 (JSONDecodeError msg));
      [|reflexivity].
    apply check_vrm_malformed with (r := r); assumption.
  - intros doc e Hj Hm. split; [|split].
    + rewrite main_cons.
      rewrite (main_body_uncaught rt server vrm _ w1 e); [reflexivity| |].
      * apply check_vrm_missing_field with (r := r) (doc := doc); assumption.
      * eapply subscript_raises; eassumption.
    + eapply subscript_raises; eassumption.
    + eapply subscript_raises_kind; eassumption.
  - intros doc e Hc Hf. split; [|split].
    + rewrite main_cons.
      now rewrite (main_body_no_report rt server vrm _ w1 doc e).
    + eapply read_fields_raises; eassumption.
    + eapply read_fields_raises_kind; eassumption.
Qed.

Lemma unexpected_body_in_the_loop_witness :
  let server := always (answer 200 "OK" make_only_body) in
  main BasicLatin.runtime server [py "AB12CDE"] fresh
  = (Raised (KeyError (py "model")),
     put_on_wire (lookup_request BasicLatin.runtime (py "AB12CDE"))
       (write prompt fresh))
  /\ caught (KeyError (py "model")) = false
  /\ ((exists key, KeyError (py "model") = KeyError key)
      \/ (exists m, KeyError (py "model") = TypeError m)).
Proof.
  exact (proj2 (proj2
           (unexpected_body_in_the_loop BasicLatin.runtime
              (always (answer 200 "OK" make_only_body))
              (py "AB12CDE") [] fresh (answer 200 "OK" make_only_body)
              eq_refl eq_refl eq_refl))
           (PyDict
              [(py "vrmLookupResponse",
                PyDict
                  [(py "vehicleDetails",
                    PyDict [(py "make", PyStr (py "Ford"));
                            (py "vrm", PyStr (py "AB12CDE"))])])])
           (KeyError (py "model")) eq_refl eq_refl).
Defined.

(** Against C10 as written: the body [NaN] is not JSON, yet [json.loads]
    takes it for a float and raises nothing; [check_vrm] then raises the
    [TypeError] of subscripting a float, which is no [ValueError], and
    [main] ends in it: no error line, no second prompt. *)
Lemma nan_body_ends_loop :
  let server := always (answer 200 "OK" nan_body) in
  json_loads BasicLatin.runtime nan_body = Returned (PyFloat S754_nan)
  /\ check_vrm BasicLatin.runtime server (py "AB12CDE") (write prompt fresh)
     = (Raised (TypeError (py "'float' object is not subscriptable")),
        put_on_wire (lookup_request BasicLatin.runtime (py "AB12CDE"))
          (write prompt fresh))
  /\ isinstance (TypeError (py "'float' object is not subscriptable"))
       ValueError_class = false
  /\ main BasicLatin.runtime server [py "AB12CDE"; py "XY34ZZZ"] fresh
     = (Raised (TypeError (py "'float' object is not subscriptable")),
        put_on_wire (lookup_request BasicLatin.runtime (py "AB12CDE"))
          (write prompt fresh)).
Proof. repeat split; vm_compute; reflexivity. Qed.

(** C10, as the script has it.  For a valid VRM answered with status 200
    and a body that [json.loads] rejects with a [JSONDecodeError],
    [check_vrm] raises that error; it is an instance of [ValueError], so
    the body of the loop returns having written the error line with the
    text of the exception, and the output of [main] goes on with the next
    prompt. *)
Theorem rejected_json_is_caught_as_ValueError
  (rt : Runtime) (server : Upstream) (vrm : pystr) (rest : list pystr)
  (w : World) (r : http_response) (msg : pystr) :
  str_isalnum rt (normalised rt vrm) = true ->
  server (List.length (sent w)) (lookup_request rt vrm) = inl r ->
  status_code r = 200 ->
  json_loads rt (text r) = Raised (JSONDecodeError msg) ->
  let w1 := put_on_wire (lookup_request rt vrm) (write prompt w) in
  check_vrm rt server vrm (write prompt w) = (Raised (JSONDecodeError msg), w1)
  /\ isinstance (JSONDecodeError msg) ValueError_class = true
  /\ main_body rt server vrm (write prompt w)
     = (Returned tt, write (error_line msg) w1)
  /\ main rt server (vrm :: rest) w
     = main rt server rest (write (error_line msg) w1)
  /\ exists out,
       stdout (snd (main rt server (vrm :: rest) w))
       = stdout w ++ prompt ++ error_line msg ++ prompt ++ out.
Proof.
  intros Hv Hs H200 Hj w1.
  assert (check_vrm rt server vrm (write prompt w)
          = (Raised (JSONDecodeError msg), w1)) as Hc
      by (apply check_vrm_malformed with (r := r); assumption).
  split; [exact Hc|]. split; [reflexivity|].
  apply (pass_with_caught_error rt server vrm rest w w1 (JSONDecodeError msg) Hc).
  reflexivity.
Qed.

Lemma rejected_json_is_caught_as_ValueError_witness :
  let server := always (answer 200 "OK" html_body) in
  let text := py "Expecting value: line 1 column 1 (char 0)" in
  let w1 := put_on_wire (lookup_request BasicLatin.runtime (py "AB12CDE"))
              (write prompt fresh) in
  check_vrm BasicLatin.runtime server (py "AB12CDE") (write prompt fresh)
  = (Raised (JSONDecodeError text), w1)
  /\ isinstance (JSONDecodeError text) ValueError_class = true
  /\ main_body BasicLatin.runtime server (py "AB12CDE") (write prompt fresh)
     = (Returned tt, write (error_line text) w1)
  /\ main BasicLatin.runtime server [py "AB12CDE"; py "XY34ZZZ"] fresh
     = main BasicLatin.runtime server [py "XY34ZZZ"]
         (write (error_line text) w1)
  /\ exists out,
       stdout (snd (main BasicLatin.runtime server
                      [py "AB12CDE"; py "XY34ZZZ"] fresh))
       = stdout fresh ++ prompt ++ error_line text ++ prompt ++ out.
Proof.
  exact (rejected_json_is_caught_as_ValueError BasicLatin.runtime
           (always (answer 200 "OK" html_body))
           (py "AB12CDE") [py "XY34ZZZ"] fresh (answer 200 "OK" html_body)
           (py "Expecting value: line 1 column 1 (char 0)")
           eq_refl eq_refl eq_refl eq_refl).
Defined.

(* ------------------------------------------------------------------ *)
(** ** More on the lookup *)

Lemma raise_for_status_client (r : http_response) (w : World) :
  400 <= status_code r < 500 ->
  raise_for_status r w
  = (Raised (HTTPError (http_error_text " Client Error: " r) r), w).
Proof.
  intros H. unfold raise_for_status, http_error_text.
  replace (400 <=? status_code r) with true by (symmetry; apply Z.leb_le; lia).
  replace (status_code r <? 500) with true by (symmetry; apply Z.ltb_lt; lia).
  simpl andb. cbv iota.
  destruct (str_of_int (status_code r)) as [|c s]; reflexivity.
Qed.

Lemma raise_for_status_server (r : http_response) (w : World) :
  500 <= status_code r < 600 ->
  raise_for_status r w
  = (Raised (HTTPError (http_error_text " Server Error: " r) r), w).
Proof.
  intros H. unfold raise_for_status, http_error_text.
  replace (status_code r <? 500) with false by (symmetry; apply Z.ltb_ge; lia).
  rewrite andb_false_r.
  replace (500 <=? status_code r) with true by (symmetry; apply Z.leb_le; lia).
  replace (status_code r <? 600) with true by (symmetry; apply Z.ltb_lt; lia).
  simpl andb. cbv iota.
  destruct (str_of_int (status_code r)) as [|c s]; reflexivity.
Qed.

(** X1.  For a valid VRM, an answer with a status from 400 to 599 makes
    [check_vrm] raise the [HTTPError] of [raise_for_status]: it carries the
    response and the text [<status> Client Error: <reason> for url: <url>]
    below 500, [<status> Server Error: ...] from 500 on. *)
Theorem error_status_raises_HTTPError_with_text
  (rt : Runtime) (server : Upstream) (vrm : pystr) (w : World)
  (r : http_response) :
  str_isalnum rt (normalised rt vrm) = true ->
  server (List.length (sent w)) (lookup_request rt vrm) = inl r ->
  400 <= status_code r < 600 ->
  check_vrm rt server vrm w
  = (Raised
       (HTTPError
          (http_error_text
             (if status_code r <? 500 then " Client Error: "
              else " Server Error: ") r) r),
     put_on_wire (lookup_request rt vrm) w).
Proof.
  intros Hv Hs H.
  rewrite (check_vrm_not_200 rt server vrm w r Hv Hs) by lia.
  destruct (status_code r <? 500) eqn:E.
  - apply Z.ltb_lt in E. rewrite raise_for_status_client by lia. reflexivity.
  - apply Z.ltb_ge in E. rewrite raise_for_status_server by lia. reflexivity.
Qed.

Lemma error_status_raises_HTTPError_with_text_witness :
  check_vrm BasicLatin.runtime (always (answer 404 "Not Found" []))
    (py "AB12CDE") fresh
  = (Raised
       (HTTPError (py "404 Client Error: Not Found for url: " ++ endpoint)
          (answer 404 "Not Found" [])),
     put_on_wire (lookup_request BasicLatin.runtime (py "AB12CDE")) fresh).
Proof.
  apply (error_status_raises_HTTPError_with_text BasicLatin.runtime
           (always (answer 404 "Not Found" [])) (py "AB12CDE") fresh
           (answer 404 "Not Found" []));
    [reflexivity | reflexivity | simpl; lia].
Defined.

(** X2.  For a valid VRM, an answer whose status is neither 200 nor from
    400 to 599 makes [check_vrm] return [None]: [raise_for_status] does not
    raise and the function body ends. *)
Theorem other_status_returns_None
  (rt : Runtime) (server : Upstream) (vrm : pystr) (w : World)
  (r : http_response) :
  str_isalnum rt (normalised rt vrm) = true ->
  server (List.length (sent w)) (lookup_request rt vrm) = inl r ->
  status_code r <> 200 ->
  status_code r < 400 \/ 600 <= status_code r ->
  check_vrm rt server vrm w
  = (Returned PyNone, put_on_wire (lookup_request rt vrm) w).
Proof.
  intros Hv Hs Hne H.
  rewrite (check_vrm_not_200 rt server vrm w r Hv Hs Hne).
  now rewrite (raise_for_status_quiet r _ H).
Qed.

Lemma other_status_returns_None_witness :
  check_vrm BasicLatin.runtime (always (answer 301 "Moved Permanently" []))
    (py "AB12CDE") fresh
  = (Returned PyNone,
     put_on_wire (lookup_request BasicLatin.runtime (py "AB12CDE")) fresh).
Proof.
  apply (other_status_returns_None BasicLatin.runtime
           (always (answer 301 "Moved Permanently" [])) (py "AB12CDE") fresh
           (answer 301 "Moved Permanently" []));
    [reflexivity | reflexivity | simpl; lia | simpl; lia].
Defined.



Lemma normalised_skips_space (rt : Runtime) (a b : pystr) :
  normalised rt (a ++ [space] ++ b) = normalised rt (a ++ b).
Proof.
  unfold normalised, str_replace. rewrite !flat_map_app. reflexivity.
Qed.

(** X4.  A space anywhere in the input makes no difference: [check_vrm] on
    a string with a space put in does what it does on the string without
    it, for the result and for the world. *)
Theorem spaces_in_the_input_are_ignored
  (rt : Runtime) (server : Upstream) (a b : pystr) (w : World) :
  check_vrm rt server (a ++ [space] ++ b) w = check_vrm rt server (a ++ b) w.
Proof.
  unfold check_vrm.
  fold (normalised rt (a ++ [space] ++ b)). fold (normalised rt (a ++ b)).
  now rewrite normalised_skips_space.
Qed.

Lemma normalised_blank (rt : Runtime) (vrm : pystr) :
  Forall (fun c => c = space) vrm -> normalised rt vrm = [].
Proof.
  unfold normalised, str_replace. induction 1 as [|c l Hc _ IH]; [reflexivity|].
  subst c. simpl. exact IH.
Qed.

(** X5.  The empty input and every input made of spaces only raise
    [ValueError] with the text [VRM is invalid: ] and nothing after it, and
    no request is sent. *)
Theorem blank_input_is_rejected
  (rt : Runtime) (server : Upstream) (vrm : pystr) (w : World) :
  Forall (fun c => c = space) vrm ->
  check_vrm rt server vrm w = (Raised (ValueError (py "VRM is invalid: ")), w).
Proof.
  intros H. rewrite check_vrm_invalid.
  - now rewrite (normalised_blank rt vrm H), app_nil_r.
  - now rewrite (normalised_blank rt vrm H).
Qed.

Lemma blank_input_is_rejected_witness :
  check_vrm BasicLatin.runtime (always (answer 200 "OK" ford_body))
    (py "   ") fresh
  = (Raised (ValueError (py "VRM is invalid: ")), fresh).
Proof.
  apply (blank_input_is_rejected BasicLatin.runtime
           (always (answer 200 "OK" ford_body)) (py "   ") fresh).
  repeat constructor.
Defined.

(** X6.  Whatever the input and whatever the server does, [check_vrm]
    writes nothing to standard output and leaves the requests sent before
    as they were; it adds no request for an invalid VRM and exactly its one
    request for a valid one. *)
Theorem check_vrm_footprint
  (rt : Runtime) (server : Upstream) (vrm : pystr) (w : World) :
  stdout (snd (check_vrm rt server vrm w)) = stdout w
  /\ sent (snd (check_vrm rt server vrm w))
     = sent w ++ (if str_isalnum rt (normalised rt vrm)
                  then [lookup_request rt vrm] else []).
Proof.
  destruct (str_isalnum rt (normalised rt vrm)) eqn:Hv.
  - rewrite (check_vrm_world_valid rt server vrm w Hv). split; reflexivity.
  - rewrite (check_vrm_invalid rt server vrm w Hv). simpl.
    now rewrite app_nil_r.
Qed.

(** What a call that returns a document tells about the run. *)
Lemma check_vrm_returned_inv
  (rt : Runtime) (server : Upstream) (vrm : pystr) (w w' : World)
  (doc : pyval) :
  check_vrm rt server vrm w = (Returned doc, w') ->
  doc <> PyNone ->
  str_isalnum rt (normalised rt vrm) = true
  /\ w' = put_on_wire (lookup_request rt vrm) w
  /\ exists r parsed make,
       server (List.length (sent w)) (lookup_request rt vrm) = inl r
       /\ status_code r = 200
       /\ json_loads rt (text r) = Returned parsed
       /\ subscript parsed make_path = Returned make
       /\ eq_str make [] = false
       /\ subscript doc vrm_path = Returned (PyStr (normalised rt vrm))
       /\ subscript doc make_path = Returned make.
Proof.
  intros H Hne.
  destruct (str_isalnum rt (normalised rt vrm)) eqn:Hv;
    [|rewrite (check_vrm_invalid rt server vrm w Hv) in H; discriminate].
  destruct (server (List.length (sent w)) (lookup_request rt vrm))
    as [r|msg] eqn:Hs;
    [|rewrite (check_vrm_transport_failure rt server vrm msg w Hv Hs) in H;
      discriminate].
  destruct (Z.eq_dec (status_code r) 200) as [H200|Hn200].
  - rewrite (check_vrm_200 rt server vrm w r Hv Hs H200) in H. cbv zeta in H.
    destruct (json_loads rt (text r)) as [parsed|e] eqn:Hj; [|discriminate].
    destruct (subscript parsed make_path) as [make|e] eqn:Hm; [|discriminate].
    destruct (eq_str make []) eqn:He; [discriminate|].
    destruct (subscript3_inv _ _ _ _ _ Hm)
      as (top & lr & vd & -> & Ht & Hl & Hmk).
    rewrite Ht, Hl in H. inversion H; subst doc w'; clear H.
    split; [reflexivity|]. split; [reflexivity|].
    exists r, (PyDict top), make. repeat split; try assumption.
    + apply nested_store_hit.
    + rewrite (nested_store_miss (py "vrmLookupResponse") (py "vehicleDetails")
                 (py "vrm") (PyStr (normalised rt vrm)) top lr vd Ht Hl
                 make_path eq_refl).
      exact Hm.
  - rewrite (check_vrm_not_200 rt server vrm w r Hv Hs Hn200) in H.
    destruct (raise_for_status r _) as [[[]|e] w1]; inversion H; subst;
      contradiction.
Qed.

(** X7.  When [check_vrm] returns a value other than [None], the VRM was
    valid, exactly its request was put on the wire, the answer had status
    200 and parsed as JSON with a [make] other than the empty string, and
    the value returned holds that [make] and, as [vrm], the normalised
    VRM. *)
Theorem returned_document_comes_from_a_200_answer
  (rt : Runtime) (server : Upstream) (vrm : pystr) (w w' : World)
  (doc : pyval) :
  check_vrm rt server vrm w = (Returned doc, w') ->
  doc <> PyNone ->
  str_isalnum rt (normalised rt vrm) = true
  /\ w' = put_on_wire (lookup_request rt vrm) w
  /\ exists r parsed make,
       server (List.length (sent w)) (lookup_request rt vrm) = inl r
       /\ status_code r = 200
       /\ json_loads rt (text r) = Returned parsed
       /\ subscript parsed make_path = Returned make
       /\ eq_str make [] = false
       /\ subscript doc vrm_path = Returned (PyStr (normalised rt vrm))
       /\ subscript doc make_path = Returned make.
Proof. apply check_vrm_returned_inv. Qed.

Lemma returned_document_comes_from_a_200_answer_witness :
  exists r parsed make,
    always (answer 200 "OK" make_only_body) (List.length (sent fresh))
      (lookup_request BasicLatin.runtime (py "ab12 cde")) = inl r
    /\ status_code r = 200
    /\ json_loads BasicLatin.runtime (text r) = Returned parsed
    /\ subscript parsed make_path = Returned make
    /\ eq_str make [] = false
    /\ subscript
         (PyDict
            [(py "vrmLookupResponse",
              PyDict
                [(py "vehicleDetails",
                  PyDict [(py "make", PyStr (py "Ford"));
                          (py "vrm", PyStr (py "AB12CDE"))])])])
         vrm_path
       = Returned (PyStr (py "AB12CDE"))
    /\ subscript
         (PyDict
            [(py "vrmLookupResponse",
              PyDict
                [(py "vehicleDetails",
                  PyDict [(py "make", PyStr (py "Ford"));
                          (py "vrm", PyStr (py "AB12CDE"))])])])
         make_path
       = Returned make.
Proof.
  refine (proj2 (proj2
            (returned_document_comes_from_a_200_answer BasicLatin.runtime
               (always (answer 200 "OK" make_only_body)) (py "ab12 cde")
               fresh
               (put_on_wire (lookup_request BasicLatin.runtime (py "ab12 cde"))
                  fresh)
               (PyDict
                  [(py "vrmLookupResponse",
                    PyDict
                      [(py "vehicleDetails",
                        PyDict [(py "make", PyStr (py "Ford"));
                                (py "vrm", PyStr (py "AB12CDE"))])])])
               eq_refl _))).
  discriminate.
Defined.

(* ------------------------------------------------------------------ *)
(** ** More on the report *)



Lemma read_fields_vrm (doc : pyval) (f : report_fields) :
  read_fields doc = Returned f ->
  subscript doc (details_path "vrm") = Returned (f_vrm f).
Proof.
  unfold read_fields.
  repeat match goal with
         | |- context [and_then (subscript doc ?p) _] =>
             destruct (subscript doc p) eqn:?; cbn [and_then]; [|discriminate]
         end.
  intros H; inversion H; subst; reflexivity.
Qed.

Lemma alnum_text_has_no_newline (rt : Runtime) (s : pystr) :
  unicode_isalnum rt newline = false ->
  str_isalnum rt s = true -> ~ In newline s.
Proof.
  intros Hnl Hs Hin. destruct s as [|c s]; [destruct Hin|].
  unfold str_isalnum in Hs. rewrite forallb_forall in Hs.
  rewrite (Hs newline Hin) in Hnl. discriminate.
Qed.

(** X9.  Lookup and report together: when the newline is not an
    alphanumeric character, [check_vrm] returns a document and
    [pretty_print] prints it, then one request has gone out and the text
    printed holds the line [VRM: ] followed by the normalised VRM, whatever
    the response said its [vrm] was. *)
Theorem report_shows_the_normalised_vrm
  (rt : Runtime) (server : Upstream) (vrm : pystr) (w w1 w2 : World)
  (doc : pyval) :
  unicode_isalnum rt newline = false ->
  check_vrm rt server vrm w = (Returned doc, w1) ->
  doc <> PyNone ->
  pretty_print rt doc w1 = (Returned tt, w2) ->
  exists text,
    stdout w2 = stdout w ++ text
    /\ In (py "VRM: " ++ normalised rt vrm) (str_lines text)
    /\ sent w2 = sent w ++ [lookup_request rt vrm].
Proof.
  intros Hnl Hc Hne Hp.
  destruct (check_vrm_returned_inv rt server vrm w w1 doc Hc Hne)
    as (Hv & -> & r & parsed & make & _ & _ & _ & _ & _ & Hvrm & _).
  rewrite pretty_print_reads_then_prints in Hp.
  destruct (read_fields doc) as [f|e] eqn:Hf; [|discriminate].
  assert (w2 = write (report rt f ++ [newline])
                 (put_on_wire (lookup_request rt vrm) w)) as ->
      by congruence.
  clear Hp.
  pose proof (read_fields_vrm doc f Hf) as Hfv.
  change (details_path "vrm") with vrm_path in Hfv.
  rewrite Hvrm in Hfv. inversion Hfv as [Hfv'].
  exists (report rt f ++ [newline]). split; [reflexivity|]. split; [|reflexivity].
  apply line_of_report.
  - unfold report_lines. rewrite <- Hfv'. simpl. tauto.
  - intros Hin. apply in_app_or in Hin as [Hin|Hin].
    + simpl in Hin. repeat destruct Hin as [Hin|Hin]; try discriminate Hin.
      exact Hin.
    + exact (alnum_text_has_no_newline rt _ Hnl Hv Hin).
Qed.

Lemma report_shows_the_normalised_vrm_witness :
  let server := always (answer 200 "OK" ford_body) in
  let run1 := check_vrm BasicLatin.runtime server (py "ab12 cde") fresh in
  let doc := match fst run1 with Returned d => d | Raised _ => PyNone end in
  let run2 := pretty_print BasicLatin.runtime doc (snd run1) in
  exists text,
    stdout (snd run2) = stdout fresh ++ text
    /\ In (py "VRM: AB12CDE") (str_lines text)
    /\ sent (snd run2)
       = sent fresh ++ [lookup_request BasicLatin.runtime (py "ab12 cde")].
Proof.
  cbv zeta.
  refine (report_shows_the_normalised_vrm BasicLatin.runtime
            (always (answer 200 "OK" ford_body)) (py "ab12 cde") fresh _ _ _
            eq_refl eq_refl _ eq_refl).
  vm_compute. discriminate.
Defined.

(* ------------------------------------------------------------------ *)
(** ** More on the loop *)





(** X11.  Whatever the input lines and whatever the server does, [main]
    keeps what was sent and written before, sends at most one request per
    line read, and every request it sends is a POST for the fixed endpoint
    with the two JSON headers. *)
Theorem main_only_posts_to_the_endpoint
  (rt : Runtime) (server : Upstream) (stdin : list pystr) (w : World) :
  exists reqs out,
    sent (snd (main rt server stdin w)) = sent w ++ reqs
    /\ stdout (snd (main rt server stdin w)) = stdout w ++ out
    /\ (List.length reqs <= List.length stdin)%nat
    /\ Forall is_lookup_post reqs.
Proof.
  revert w. induction stdin as [|vrm rest IH]; intros w.
  - rewrite main_nil. exists [], prompt. simpl. rewrite app_nil_r.
    repeat split; auto.
  - rewrite main_cons.
    destruct (main_body_footprint rt server vrm (write prompt w))
      as (reqs1 & out1 & Hs1 & Ho1 & Hl1 & Hp1).
    destruct (main_body rt server vrm (write prompt w)) as [[[]|e] w1];
      simpl in Hs1, Ho1.
    + destruct (IH w1) as (reqs2 & out2 & Hs2 & Ho2 & Hl2 & Hp2).
      exists (reqs1 ++ reqs2), (prompt ++ out1 ++ out2).
      rewrite Hs2, Ho2, Hs1, Ho1. rewrite <- !app_assoc.
      repeat split; auto.
      * rewrite length_app. simpl. lia.
      * apply Forall_app. split; assumption.
    + exists reqs1, (prompt ++ out1). simpl.
      rewrite Hs1, Ho1, <- !app_assoc.
      repeat split; auto. simpl. lia.
Qed.

(* ------------------------------------------------------------------ *)
(** ** The request body and the document returned *)






Lemma dict_set_keys (k : pystr) (v : pyval) (items : list (pystr * pyval)) :
  map fst (dict_set k v items)
  = if existsb (fun k' => str_eqb k' k) (map fst items)
    then map fst items else map fst items ++ [k].
Proof.
  induction items as [|[k' v'] rest IH]; [reflexivity|].
  simpl. destruct (str_eqb k' k) eqn:E; simpl; [reflexivity|].
  rewrite IH. destruct (existsb _ (map fst rest)); reflexivity.
Qed.

Lemma dict_get_key_present (k : pystr) (v : pyval)
  (items : list (pystr * pyval)) :
  dict_get k items = Some v ->
  existsb (fun k' => str_eqb k' k) (map fst items) = true.
Proof.
  induction items as [|[k' v'] rest IH]; [discriminate|].
  simpl. destruct (str_eqb k' k); [reflexivity|]. exact IH.
Qed.

Lemma dict_set_keys_present (k : pystr) (v v0 : pyval)
  (items : list (pystr * pyval)) :
  dict_get k items = Some v0 ->
  map fst (dict_set k v items) = map fst items.
Proof.
  intros H. now rewrite dict_set_keys, (dict_get_key_present k v0 items H).
Qed.

(** X13.  The document [check_vrm] returns keeps the keys of the document
    received in their order, at the top, in [vrmLookupResponse] and in
    [vehicleDetails]; the one change is that [vrm] is put at the end of the
    keys of [vehicleDetails] when the answer had no such key. *)
Theorem returned_document_keeps_the_key_order
  (rt : Runtime) (server : Upstream) (vrm : pystr) (w : World)
  (r : http_response) (parsed make : pyval) :
  str_isalnum rt (normalised rt vrm) = true ->
  server (List.length (sent w)) (lookup_request rt vrm) = inl r ->
  status_code r = 200 ->
  json_loads rt (text r) = Returned parsed ->
  subscript parsed make_path = Returned make ->
  eq_str make [] = false ->
  exists doc lr lr' vd vd',
    check_vrm rt server vrm w
    = (Returned doc, put_on_wire (lookup_request rt vrm) w)
    /\ dict_keys doc = dict_keys parsed
    /\ getitem parsed (py "vrmLookupResponse") = Returned lr
    /\ getitem doc (py "vrmLookupResponse") = Returned lr'
    /\ dict_keys lr' = dict_keys lr
    /\ getitem lr (py "vehicleDetails") = Returned vd
    /\ getitem lr' (py "vehicleDetails") = Returned vd'
    /\ dict_keys vd'
       = if existsb (fun k => str_eqb k (py "vrm")) (dict_keys vd)
         then dict_keys vd else dict_keys vd ++ [py "vrm"].
Proof.
  intros Hv Hs H200 Hdoc Hmake Hne.
  rewrite (check_vrm_200 rt server vrm w r Hv Hs H200). cbv zeta.
  rewrite Hdoc, Hmake, Hne.
  destruct (subscript3_inv _ _ _ _ _ Hmake) as (top & lr & vd & -> & Ht & Hl & _).
  rewrite Ht, Hl.
  eexists _, (PyDict lr), _, (PyDict vd), _.
  split; [reflexivity|].
  split; [cbn [dict_keys]; apply (dict_set_keys_present _ _ _ _ Ht)|].
  split; [apply getitem_found, Ht|].
  split; [apply getitem_set_same|].
  split; [cbn [dict_keys]; apply (dict_set_keys_present _ _ _ _ Hl)|].
  split; [apply getitem_found, Hl|].
  split; [apply getitem_set_same|].
  cbn [dict_keys]. apply dict_set_keys.
Qed.

Lemma returned_document_keeps_the_key_order_witness :
  exists doc lr lr' vd vd',
    check_vrm BasicLatin.runtime (always (answer 200 "OK" make_only_body))
      (py "ab12 cde") fresh
    = (Returned doc,
       put_on_wire (lookup_request BasicLatin.runtime (py "ab12 cde")) fresh)
    /\ dict_keys doc
       = dict_keys
           (PyDict
              [(py "vrmLookupResponse",
                PyDict [(py "vehicleDetails",
                         PyDict [(py "make", PyStr (py "Ford"))])])])
    /\ getitem
         (PyDict
            [(py "vrmLookupResponse",
              PyDict [(py "vehicleDetails",
                       PyDict [(py "make", PyStr (py "Ford"))])])])
         (py "vrmLookupResponse") = Returned lr
    /\ getitem doc (py "vrmLookupResponse") = Returned lr'
    /\ dict_keys lr' = dict_keys lr
    /\ getitem lr (py "vehicleDetails") = Returned vd
    /\ getitem lr' (py "vehicleDetails") = Returned vd'
    /\ dict_keys vd'
       = if existsb (fun k => str_eqb k (py "vrm")) (dict_keys vd)
         then dict_keys vd else dict_keys vd ++ [py "vrm"].
Proof.
  apply (returned_document_keeps_the_key_order BasicLatin.runtime
           (always (answer 200 "OK" make_only_body)) (py "ab12 cde") fresh
           (answer 200 "OK" make_only_body)
           (PyDict
              [(py "vrmLookupResponse",
                PyDict [(py "vehicleDetails",
                         PyDict [(py "make", PyStr (py "Ford"))])])])
           (PyStr (py "Ford")));
    reflexivity.
Defined.
